(** * Coupon window selection of the coupons widget

    A shallow embedding of [convertMOEXData], [getCouponStatus] and
    [formatDate] of the TypeScript class [CouponsWidget] and of the same
    three methods of the legacy script, the self-contained browser build
    of the widget, with the properties of the selection window proved
    about them.

    JavaScript numbers that hold time values are integers of milliseconds
    or NaN: they are modelled as [option Z], [None] being NaN.  Array
    indices are [Z], as [findIndex] answers [-1] and the code clamps with
    [Math.max] and [Math.min]. *)

From Stdlib Require Import ZArith List String Ascii Bool Lia.
From Stdlib Require Import Permutation Sorted DecimalString.
From Stdlib Require DecimalZ DecimalPos.
Import ListNotations.

Local Open Scope string_scope.
Local Open Scope Z_scope.

(** ** JavaScript values and numbers *)

(** The MOEX payload is typed [any].  The fields the widget prints are
    numbers or [null] in practice; a number is carried by its [ToString]
    rendering, which identifies it up to the sign of zero. *)
Inductive JsValue : Type :=
| JsUndefined
| JsNull
| JsNumber (rendering : string)
| JsString (s : string).

(** [ToString], as applied by a template literal. *)
Definition toString (v : JsValue) : string :=
  match v with
  | JsUndefined => "undefined"
  | JsNull => "null"
  | JsNumber rendering => rendering
  | JsString s => s
  end.

(** [ToBoolean]: [undefined], [null], [0], [NaN] and the empty string are
    falsy. *)
Definition toBoolean (v : JsValue) : bool :=
  match v with
  | JsUndefined => false
  | JsNull => false
  | JsNumber rendering =>
      negb (String.eqb rendering "0" || String.eqb rendering "NaN")
  | JsString s => negb (String.eqb s "")
  end.

(** A time value: milliseconds since the epoch, or NaN. *)
Definition Number := option Z.

Definition NaN : Number := None.

(** Relational and strict-equality operators on numbers: every comparison
    with NaN is false. *)
Definition num_lt (a b : Number) : bool :=
  match a, b with
  | Some x, Some y => x <? y
  | _, _ => false
  end.

Definition num_ge (a b : Number) : bool :=
  match a, b with
  | Some x, Some y => x >=? y
  | _, _ => false
  end.

Definition num_eq (a b : Number) : bool :=
  match a, b with
  | Some x, Some y => x =? y
  | _, _ => false
  end.

Definition num_sub (a b : Number) : Number :=
  match a, b with
  | Some x, Some y => Some (x - y)
  | _, _ => NaN
  end.

(** [Number.prototype.toString] on an integral number or NaN. *)
Definition numberToString (n : Number) : string :=
  match n with
  | Some z => NilZero.string_of_int (Z.to_int z)
  | None => "NaN"
  end.

(** [String.prototype.padStart] with a one-character filler. *)
Definition padStart (targetLength : nat) (fill : ascii) (s : string) : string :=
  let missing := (targetLength - String.length s)%nat in
  String.concat "" (repeat (String fill EmptyString) missing) ++ s.

(** ** Arrays *)

Section Arrays.
Context {A : Type}.

Definition len (l : list A) : Z := Z.of_nat (List.length l).

(** [Array.prototype.findIndex]: the index of the first element that
    satisfies the callback, [-1] when there is none. *)
Fixpoint findIndexFrom (k : Z) (p : A -> bool) (l : list A) : Z :=
  match l with
  | [] => -1
  | x :: rest => if p x then k else findIndexFrom (k + 1) p rest
  end.

Definition findIndex (p : A -> bool) (l : list A) : Z :=
  findIndexFrom 0 p l.

(** [Array.prototype.slice(start, end)]: a negative bound counts from
    the end, both bounds are clamped to the array and an empty range
    yields the empty array. *)
Definition slice (l : list A) (start finish : Z) : list A :=
  let k := if start <? 0 then Z.max (len l + start) 0
           else Z.min start (len l) in
  let final := if finish <? 0 then Z.max (len l + finish) 0
               else Z.min finish (len l) in
  firstn (Z.to_nat (final - k)) (skipn (Z.to_nat k) l).

(** Indexing [a[i]]: [undefined] out of range. *)
Definition at_index (l : list A) (i : Z) : option A :=
  if i <? 0 then None else nth_error l (Z.to_nat i).

(** [Array.prototype.sort(comparefn)].  The comparator's answer goes
    through [SortCompare], which reads NaN as [+0].  The sort is stable.
    For a consistent comparator that fixes the result: a sorted, stable
    rearrangement (see [sortedCoupons_perm], [sortedCoupons_sorted] and
    [sortedCoupons_stable]).  Otherwise the order is up to the engine, and
    the model is the insertion sort that puts an element in front of the
    first one it does not exceed. *)
Variable comparefn : A -> A -> Number.

Definition sortCompare (x y : A) : Z :=
  match comparefn x y with
  | Some v => v
  | None => 0
  end.

Fixpoint sortInsert (x : A) (l : list A) : list A :=
  match l with
  | [] => [x]
  | y :: rest =>
      if sortCompare x y <=? 0 then x :: y :: rest
      else y :: sortInsert x rest
  end.

Fixpoint sort (l : list A) : list A :=
  match l with
  | [] => []
  | x :: rest => sortInsert x (sort rest)
  end.
End Arrays.

(** ** The host's [Date] *)

(** What the widget uses of the engine's [Date]: parsing a string to a
    time value ([new Date(s).getTime()], NaN when the string is not a
    date) and the local calendar fields of a time value. *)
Class DateHost : Type := {
  parseDate : string -> Number;
  getDate : Z -> Z;
  getMonth : Z -> Z;
  getFullYear : Z -> Z
}.

(** ** Data *)

(** A coupon row of the MOEX [bondization] reply, with the three fields
    the widget reads. *)
Record MoexCoupon : Type := {
  coupondate : string;
  valueprc : JsValue;
  value_rub : JsValue
}.

(** [CouponData], as [convertMOEXData] fills it. *)
Record CouponData : Type := {
  paymentDate : string;
  rate : string;
  amount : string;
  current : bool;
  disabled : bool
}.

(** ** The widget *)

Section Widget.
Context {host : DateHost}.

(** [new Date(s).getTime()]. *)
Definition getTime (dateString : string) : Number := parseDate dateString.

(** [formatDate]: [DD.MM.YYYY] in local time; every part of an invalid
    date prints as [NaN]. *)
Definition formatDate (dateString : string) : string :=
  let date := getTime dateString in
  let day := padStart 2 "0" (numberToString (option_map getDate date)) in
  let month :=
    padStart 2 "0"
      (numberToString (option_map (fun m => m + 1) (option_map getMonth date))) in
  let year := numberToString (option_map getFullYear date) in
  day ++ "." ++ month ++ "." ++ year.

(** [couponDate === currentCouponDate], the latter a string or [null]. *)
Definition strictEqDate (couponDate : string) (currentCouponDate : option string) : bool :=
  match currentCouponDate with
  | Some d => String.eqb couponDate d
  | None => false
  end.

(** [getCouponStatus]. *)
Definition getCouponStatus (couponDate : string) (currentDate : Z)
    (currentCouponDate : option string) : string :=
  let couponDateTime := getTime couponDate in
  let currentDateTime := Some currentDate in
  if strictEqDate couponDate currentCouponDate then "current"
  else if num_lt couponDateTime currentDateTime then "disabled"
  else if num_eq couponDateTime currentDateTime then "upcoming"
  else "".

(** The comparator handed to [sort]: the difference of the two time
    values, NaN when either date is invalid.  The engine rounds a
    difference beyond 2^53, which keeps its sign, and the sort reads the
    sign only. *)
Definition byCouponDate (a b : MoexCoupon) : Number :=
  num_sub (getTime (coupondate a)) (getTime (coupondate b)).

(** The callback handed to [findIndex]:
    [new Date(coupon.coupondate) >= currentDate]. *)
Definition isUpcoming (currentDate : Z) (coupon : MoexCoupon) : bool :=
  num_ge (getTime (coupondate coupon)) (Some currentDate).

(** The locals of [convertMOEXData], each as a function of the
    midnight-truncated [currentDate] and of the input. *)
Definition sortedCoupons (couponsData : list MoexCoupon) : list MoexCoupon :=
  sort byCouponDate couponsData.

Definition firstUpcomingIndex (currentDate : Z) (couponsData : list MoexCoupon) : Z :=
  let firstUpcomingIndex := findIndex (isUpcoming currentDate) (sortedCoupons couponsData) in
  if firstUpcomingIndex =? -1 then len (sortedCoupons couponsData)
  else firstUpcomingIndex.

Definition startIndex (currentDate : Z) (couponsData : list MoexCoupon) : Z :=
  Z.max 0 (firstUpcomingIndex currentDate couponsData - 2).

Definition endIndex (currentDate : Z) (couponsData : list MoexCoupon) : Z :=
  Z.min (len (sortedCoupons couponsData))
    (if startIndex currentDate couponsData =? 0
     then firstUpcomingIndex currentDate couponsData + 5
     else firstUpcomingIndex currentDate couponsData + 3).

Definition selectedCoupons (currentDate : Z) (couponsData : list MoexCoupon) : list MoexCoupon :=
  slice (sortedCoupons couponsData)
    (startIndex currentDate couponsData) (endIndex currentDate couponsData).

Definition currentCouponDate (currentDate : Z) (couponsData : list MoexCoupon) : option string :=
  if firstUpcomingIndex currentDate couponsData <? len (sortedCoupons couponsData)
  then option_map coupondate
         (at_index (sortedCoupons couponsData) (firstUpcomingIndex currentDate couponsData))
  else None.

(** The body of the [map] callback. *)
Definition toCouponData (currentDate : Z) (currentCouponDate : option string)
    (coupon : MoexCoupon) : CouponData :=
  let status := getCouponStatus (coupondate coupon) currentDate currentCouponDate in
  {| paymentDate := formatDate (coupondate coupon);
     rate := if toBoolean (valueprc coupon)
             then toString (valueprc coupon) ++ "%" else "-";
     amount := if toBoolean (value_rub coupon)
               then toString (value_rub coupon) ++ "₽" else "-";
     current := String.eqb status "current";
     disabled := String.eqb status "disabled" |}.

(** [convertMOEXData] of the TypeScript widget.  [currentDate] is the
    time value of [new Date()] after [setHours(0, 0, 0, 0)]. *)
Definition convertMOEXData (currentDate : Z) (couponsData : list MoexCoupon) : list CouponData :=
  if (List.length couponsData =? 0)%nat then []
  else
    map (toCouponData currentDate (currentCouponDate currentDate couponsData))
      (selectedCoupons currentDate couponsData).

(** *** The legacy script

    Its [convertMOEXData] sorts and searches the same way, always ends
    the window at [firstUpcomingIndex + 3] and prints the two values
    without testing them. *)
Definition legacy_endIndex (currentDate : Z) (couponsData : list MoexCoupon) : Z :=
  Z.min (len (sortedCoupons couponsData))
    (firstUpcomingIndex currentDate couponsData + 3).

Definition legacy_selectedCoupons (currentDate : Z) (couponsData : list MoexCoupon) : list MoexCoupon :=
  slice (sortedCoupons couponsData)
    (startIndex currentDate couponsData) (legacy_endIndex currentDate couponsData).

Definition legacy_toCouponData (currentDate : Z) (currentCouponDate : option string)
    (coupon : MoexCoupon) : CouponData :=
  let status := getCouponStatus (coupondate coupon) currentDate currentCouponDate in
  {| paymentDate := formatDate (coupondate coupon);
     rate := toString (valueprc coupon) ++ "%";
     amount := toString (value_rub coupon) ++ "₽";
     current := String.eqb status "current";
     disabled := String.eqb status "disabled" |}.

Definition legacy_convertMOEXData (currentDate : Z) (couponsData : list MoexCoupon) : list CouponData :=
  if (List.length couponsData =? 0)%nat then []
  else
    map (legacy_toCouponData currentDate (currentCouponDate currentDate couponsData))
      (legacy_selectedCoupons currentDate couponsData).
End Widget.

(** ** A concrete host

    The theorems below hold for every host.  Their instances are computed
    on this one: an engine in the UTC time zone whose [Date] reads the ISO
    date-only form [YYYY-MM-DD] (UTC midnight of that day, as ECMAScript
    prescribes for it) and answers NaN on anything else. *)

Definition msPerDay : Z := 86400000.

(** Days from 1970-01-01 to the given day of the proleptic Gregorian
    calendar, and back. *)
Definition daysFromCivil (y m d : Z) : Z :=
  let y' := if m <=? 2 then y - 1 else y in
  let era := y' / 400 in
  let yoe := y' - era * 400 in
  let doy := (153 * (if m >? 2 then m - 3 else m + 9) + 2) / 5 + d - 1 in
  let doe := yoe * 365 + yoe / 4 - yoe / 100 + doy in
  era * 146097 + doe - 719468.

Definition civilFromDays (days : Z) : Z * Z * Z :=
  let z := days + 719468 in
  let era := z / 146097 in
  let doe := z - era * 146097 in
  let yoe := (doe - doe / 1460 + doe / 36524 - doe / 146096) / 365 in
  let doy := doe - (365 * yoe + yoe / 4 - yoe / 100) in
  let mp := (5 * doy + 2) / 153 in
  let d := doy - (153 * mp + 2) / 5 + 1 in
  let m := if mp <? 10 then mp + 3 else mp - 9 in
  (if m <=? 2 then yoe + era * 400 + 1 else yoe + era * 400, m, d).

Definition isLeapYear (y : Z) : bool :=
  ((y mod 4 =? 0) && negb (y mod 100 =? 0)) || (y mod 400 =? 0).

Definition daysInMonth (y m : Z) : Z :=
  if m =? 2 then (if isLeapYear y then 29 else 28)
  else if (m =? 4) || (m =? 6) || (m =? 9) || (m =? 11) then 30
  else 31.

Definition digit (c : ascii) : option Z :=
  let n := Z.of_nat (nat_of_ascii c) in
  if (48 <=? n) && (n <=? 57) then Some (n - 48) else None.

Definition digits2 (a b : ascii) : option Z :=
  match digit a, digit b with
  | Some x, Some y => Some (10 * x + y)
  | _, _ => None
  end.

Definition digits4 (a b c d : ascii) : option Z :=
  match digits2 a b, digits2 c d with
  | Some x, Some y => Some (100 * x + y)
  | _, _ => None
  end.

Definition isoParse (s : string) : Number :=
  match s with
  | String y1 (String y2 (String y3 (String y4 (String "-"
      (String m1 (String m2 (String "-" (String d1 (String d2 EmptyString))))))))) =>
      match digits4 y1 y2 y3 y4, digits2 m1 m2, digits2 d1 d2 with
      | Some y, Some m, Some d =>
          if (1 <=? m) && (m <=? 12) && (1 <=? d) && (d <=? daysInMonth y m)
          then Some (daysFromCivil y m d * msPerDay)
          else NaN
      | _, _, _ => NaN
      end
  | _ => NaN
  end.

Definition utcHost : DateHost :=
  {| parseDate := isoParse;
     getDate := fun t => snd (civilFromDays (t / msPerDay));
     getMonth := fun t => snd (fst (civilFromDays (t / msPerDay))) - 1;
     getFullYear := fun t => fst (fst (civilFromDays (t / msPerDay))) |}.

(** The time value of local midnight of an ISO day on [utcHost]; [0] when
    the string is not a date. *)
Definition midnightOf (day : string) : Z :=
  match isoParse day with
  | Some t => t
  | None => 0
  end.

(** ** Sample inputs *)

Definition coupon (date : string) (prc rub : string) : MoexCoupon :=
  {| coupondate := date; valueprc := JsNumber prc; value_rub := JsNumber rub |}.

(** Ten monthly coupons, January to October 2024. *)
Definition monthly2024 : list MoexCoupon :=
  [ coupon "2024-01-01" "7.5" "37.4"; coupon "2024-02-01" "7.5" "37.4";
    coupon "2024-03-01" "7.5" "37.4"; coupon "2024-04-01" "7.5" "37.4";
    coupon "2024-05-01" "7.5" "37.4"; coupon "2024-06-01" "7.5" "37.4";
    coupon "2024-07-01" "7.5" "37.4"; coupon "2024-08-01" "7.5" "37.4";
    coupon "2024-09-01" "7.5" "37.4"; coupon "2024-10-01" "7.5" "37.4" ].

(** Three half-yearly coupons. *)
Definition halfYearly : list MoexCoupon :=
  [ coupon "2024-01-01" "8" "39.89"; coupon "2024-06-01" "8" "39.89";
    coupon "2024-12-01" "8" "39.89" ].

(** Two rows of the reply with one and the same date. *)
Definition sameDayTwice : list MoexCoupon :=
  [ coupon "2024-12-01" "8" "39.89"; coupon "2024-12-01" "8" "39.89" ].

(** A row whose date is not a date. *)
Definition undated : MoexCoupon := coupon "n/a" "8" "39.89".

Definition undatedThenPast : list MoexCoupon :=
  [ undated; coupon "2024-06-01" "8" "39.89" ].

Definition undatedBetween : list MoexCoupon :=
  [ coupon "2024-03-01" "8" "39.89"; undated; coupon "2024-01-01" "8" "39.89" ].

(** ** What the claims speak of *)

Section Notions.
Context {host : DateHost}.

(** Some record is dated on or after today: an anchor exists. *)
Definition hasAnchor (currentDate : Z) (couponsData : list MoexCoupon) : bool :=
  existsb (isUpcoming currentDate) couponsData.

(** The number of entries marked current. *)
Definition countCurrent (entries : list CouponData) : nat :=
  List.length (filter current entries).

(** [a <= b] on time values, as JavaScript evaluates it. *)
Definition num_le (a b : Number) : bool :=
  match a, b with
  | Some x, Some y => x <=? y
  | _, _ => false
  end.

(** A window is chronological when no record comes before one dated
    earlier. *)
Definition chronological (window : list MoexCoupon) : Prop :=
  forall (i j : nat) (a b : MoexCoupon),
    (i < j)%nat ->
    nth_error window i = Some a ->
    nth_error window j = Some b ->
    num_le (getTime (coupondate a)) (getTime (coupondate b)) = true.

(** [a] is dated no later than [b], both dates being valid. *)
Definition dateLe (a b : MoexCoupon) : Prop :=
  num_le (getTime (coupondate a)) (getTime (coupondate b)) = true.

(** Every date of the input parses. *)
Definition allParse (couponsData : list MoexCoupon) : Prop :=
  Forall (fun c => getTime (coupondate c) <> NaN) couponsData.

(** Every date of the input is strictly before today. *)
Definition allPast (currentDate : Z) (couponsData : list MoexCoupon) : Prop :=
  Forall (fun c => num_lt (getTime (coupondate c)) (Some currentDate) = true)
    couponsData.

(** The policy of the specification for a date that does not parse: it
    counts as later than every valid date, hence as on or after today. *)
Definition policy_isUpcoming (currentDate : Z) (coupon : MoexCoupon) : bool :=
  match getTime (coupondate coupon) with
  | Some t => t >=? currentDate
  | None => true
  end.

Definition policy_compare (a b : MoexCoupon) : Number :=
  match getTime (coupondate a), getTime (coupondate b) with
  | Some x, Some y => Some (x - y)
  | Some _, None => Some (-1)
  | None, Some _ => Some 1
  | None, None => Some 0
  end.

(** The sorted copy and the anchor index that this policy would give. *)
Definition policy_sortedCoupons (couponsData : list MoexCoupon) : list MoexCoupon :=
  sort policy_compare couponsData.

Definition policy_firstUpcomingIndex (currentDate : Z) (couponsData : list MoexCoupon) : Z :=
  let i := findIndex (policy_isUpcoming currentDate) (policy_sortedCoupons couponsData) in
  if i =? -1 then len (policy_sortedCoupons couponsData) else i.


(** [a] is dated strictly before [b]. *)
Definition dateLt (a b : MoexCoupon) : Prop :=
  num_lt (getTime (coupondate a)) (getTime (coupondate b)) = true.

(** The entry shown for a record, with the two flags given. *)
Definition displayEntry (coupon : MoexCoupon) (isCurrent isDisabled : bool) : CouponData :=
  {| paymentDate := formatDate (coupondate coupon);
     rate := if toBoolean (valueprc coupon)
             then toString (valueprc coupon) ++ "%" else "-";
     amount := if toBoolean (value_rub coupon)
               then toString (value_rub coupon) ++ "₽" else "-";
     current := isCurrent;
     disabled := isDisabled |}.

(** Both printed values of a record are truthy. *)
Definition valuesPresent (coupon : MoexCoupon) : Prop :=
  toBoolean (valueprc coupon) = true /\ toBoolean (value_rub coupon) = true.
End Notions.

(** ** Further notions *)

Section FurtherNotions.
Context {host : DateHost}.

(** The time value of a record's date. *)
Definition couponTime (coupon : MoexCoupon) : Number :=
  getTime (coupondate coupon).

(** The record is dated strictly before today. *)
Definition isPast (currentDate : Z) (coupon : MoexCoupon) : bool :=
  num_lt (couponTime coupon) (Some currentDate).

(** The dates of the input are pairwise distinct points in time. *)
Definition distinctTimes (couponsData : list MoexCoupon) : Prop :=
  NoDup (map couponTime couponsData).
End FurtherNotions.

(** The two decimal digits of a number below 100, tens first. *)
Definition twoDigits (n : Z) : string :=
  String (ascii_of_nat (48 + Z.to_nat (n / 10)))
    (String (ascii_of_nat (48 + Z.to_nat (n mod 10))) EmptyString).

(** ** The DOM, as far as the builder and the widget use it *)

Local Set Warnings "-register-all".

(** A thrown value: an [Error] with its message, or something else. *)
Inductive Thrown : Type :=
| ErrorObject (message : string)
| NotAnError.

(** The result of code that builds a fresh value and may throw. *)
Inductive Outcome (A : Type) : Type :=
| Done (value : A)
| Raised (error : Thrown).

Arguments Done {A} value.
Arguments Raised {A} error.

Definition bind {A B : Type} (m : Outcome A) (k : A -> Outcome B) : Outcome B :=
  match m with
  | Done value => k value
  | Raised error => Raised error
  end.

Notation "x <- m ;; k" := (bind m (fun x => k))
  (at level 61, m at next level, right associativity).

(** How a statement on a lasting object ends: normally, or by a throw
    that leaves the object as it was at that point. *)
Inductive Completion : Type :=
| Normal
| Abrupt (error : Thrown).

(** A node of the tree: a text node, or an element with its attributes,
    its class list and its children.  The class list is kept apart from
    the attributes; the code never writes the [class] attribute. *)
Inductive Node : Type :=
| TextNode (text : string)
| ElementNode (tag : string) (attrs : list (string * string))
    (classes : list string) (children : list Node).

(** An element held by the code, as opposed to a node inside a tree. *)
Record Element : Type := {
  tagName : string;
  attributes : list (string * string);
  classList : list string;
  childNodes : list Node
}.

Definition asNode (element : Element) : Node :=
  ElementNode (tagName element) (attributes element) (classList element)
    (childNodes element).

(** [node.textContent]: the texts of the tree, in document order. *)
Fixpoint textContent (node : Node) : string :=
  match node with
  | TextNode text => text
  | ElementNode _ _ _ children =>
      (fix texts (l : list Node) : string :=
         match l with
         | [] => ""
         | child :: rest => textContent child ++ texts rest
         end)%string children
  end.

(** The class list of a node; a text node has none. *)
Definition classesOf (node : Node) : list string :=
  match node with
  | TextNode _ => []
  | ElementNode _ _ classes _ => classes
  end.

Definition childrenOf (node : Node) : list Node :=
  match node with
  | TextNode _ => []
  | ElementNode _ _ _ children => children
  end.

(** What differs between engines: the message of a DOM exception or of a
    [TypeError], and which attribute names [setAttribute] accepts. *)
Class DomHost : Type := {
  exceptionMessage : string -> string;
  validAttributeName : string -> bool
}.

Definition isAsciiWhitespace (c : ascii) : bool :=
  let n := nat_of_ascii c in
  ((n =? 9) || (n =? 10) || (n =? 12) || (n =? 13) || (n =? 32))%nat.

Fixpoint hasAsciiWhitespace (s : string) : bool :=
  match s with
  | EmptyString => false
  | String c rest => isAsciiWhitespace c || hasAsciiWhitespace rest
  end.

Definition asciiLower (c : ascii) : ascii :=
  let n := nat_of_ascii c in
  if ((65 <=? n) && (n <=? 90))%nat then ascii_of_nat (n + 32) else c.

Fixpoint toLowerCase (s : string) : string :=
  match s with
  | EmptyString => EmptyString
  | String c rest => String (asciiLower c) (toLowerCase rest)
  end.

Definition contains (token : string) (tokens : list string) : bool :=
  existsb (String.eqb token) tokens.

Section Dom.
Context {dom : DomHost}.

(** The check every method of [DOMTokenList] makes of a token: the empty
    string is a [SyntaxError], white space an [InvalidCharacterError]. *)
Definition tokenError (token : string) : option Thrown :=
  if String.eqb token "" then Some (ErrorObject (exceptionMessage "SyntaxError"))
  else if hasAsciiWhitespace token
       then Some (ErrorObject (exceptionMessage "InvalidCharacterError"))
       else None.

Fixpoint tokensError (tokens : list string) : option Thrown :=
  match tokens with
  | [] => None
  | token :: rest =>
      match tokenError token with
      | Some error => Some error
      | None => tokensError rest
      end
  end.

(** [classList.add(...tokens)]: all tokens are checked first, then each
    is appended unless present. *)
Definition appendToken (tokens : list string) (token : string) : list string :=
  if contains token tokens then tokens else (tokens ++ [token])%list.

Definition classList_add (tokens : list string) (element : Element) : Outcome Element :=
  match tokensError tokens with
  | Some error => Raised error
  | None =>
      Done {| tagName := tagName element;
              attributes := attributes element;
              classList := fold_left appendToken tokens (classList element);
              childNodes := childNodes element |}
  end.

(** [classList.remove(...tokens)]. *)
Definition removeToken (tokens : list string) (token : string) : list string :=
  filter (fun t => negb (String.eqb token t)) tokens.

Definition classList_remove (tokens : list string) (element : Element) : Outcome Element :=
  match tokensError tokens with
  | Some error => Raised error
  | None =>
      Done {| tagName := tagName element;
              attributes := attributes element;
              classList := fold_left removeToken tokens (classList element);
              childNodes := childNodes element |}
  end.

(** [classList.toggle(token)]. *)
Definition classList_toggle (token : string) (element : Element) : Outcome Element :=
  if contains token (classList element) then classList_remove [token] element
  else classList_add [token] element.

(** [element.setAttribute(name, value)] on an HTML element: the name is
    lower-cased; an existing attribute gets the value, a new one is
    appended. *)
Fixpoint putAttribute (name value : string) (attrs : list (string * string))
  : list (string * string) :=
  match attrs with
  | [] => [(name, value)]
  | (n, v) :: rest =>
      if String.eqb n name then (n, value) :: rest
      else (n, v) :: putAttribute name value rest
  end.

Definition setAttribute (name value : string) (element : Element) : Outcome Element :=
  if validAttributeName name
  then Done {| tagName := tagName element;
               attributes := putAttribute (toLowerCase name) value (attributes element);
               classList := classList element;
               childNodes := childNodes element |}
  else Raised (ErrorObject (exceptionMessage "InvalidCharacterError")).

Fixpoint getAttribute (name : string) (attrs : list (string * string)) : option string :=
  match attrs with
  | [] => None
  | (n, v) :: rest => if String.eqb n name then Some v else getAttribute name rest
  end.

(** [element.id]: the [id] attribute, the empty string without one. *)
Definition elementId (element : Element) : string :=
  match getAttribute "id" (attributes element) with
  | Some v => v
  | None => ""
  end.

(** [element.appendChild(node)] of a node that is in no tree yet. *)
Definition appendChild (node : Node) (element : Element) : Element :=
  {| tagName := tagName element;
     attributes := attributes element;
     classList := classList element;
     childNodes := (childNodes element ++ [node])%list |}.

(** [element.textContent = text]: the children are replaced by one text
    node, by nothing when the text is empty. *)
Definition setTextContent (text : string) (element : Element) : Element :=
  {| tagName := tagName element;
     attributes := attributes element;
     classList := classList element;
     childNodes := if String.eqb text "" then [] else [TextNode text] |}.

(** [element.innerHTML = '']. *)
Definition clearChildren (element : Element) : Element :=
  {| tagName := tagName element;
     attributes := attributes element;
     classList := classList element;
     childNodes := [] |}.

(** ** ElementBuilder *)

(** [ChildElement], and the arrays that [addChild] flattens. *)
Inductive ChildElement : Type :=
| ChildString (s : string)
| ChildNumber (rendering : string)
| ChildNode (node : Node)
| ChildNull
| ChildUndefined
| ChildArray (items : list ChildElement).

Inductive CSSClassValue : Type :=
| OneClass (className : string)
| ManyClasses (classNames : list string).

(** [ElementBuilder.create(tag)], the element before any method is
    called on it. *)
Definition create (tag : string) : Element :=
  {| tagName := tag; attributes := []; classList := []; childNodes := [] |}.

(** The nodes that [addChild] appends for one argument: an array is gone
    through in order, a string or a number becomes a text node, a node is
    taken as it is, [null] and [undefined] give nothing. *)
Fixpoint nodesOfChild (child : ChildElement) : list Node :=
  match child with
  | ChildString s => [TextNode s]
  | ChildNumber rendering => [TextNode rendering]
  | ChildNode node => [node]
  | ChildNull => []
  | ChildUndefined => []
  | ChildArray items =>
      (fix nodes (l : list ChildElement) : list Node :=
         match l with
         | [] => []
         | item :: rest => (nodesOfChild item ++ nodes rest)%list
         end) items
  end.

(** [addChild(...children)] of an element made by [create]. *)
Definition addChild (children : list ChildElement) (element : Element) : Element :=
  fold_left (fun el child => fold_left (fun e node => appendChild node e)
                               (nodesOfChild child) el)
    children element.

(** [addChildren(children)]. *)
Definition addChildren (children : list ChildElement) (element : Element) : Element :=
  addChild children element.



(** [createAndAdd(tag, configFn)]. *)
Definition createAndAdd (tag : string) (configFn : option (Element -> Outcome Element))
    (element : Element) : Outcome Element :=
  let newElement := create tag in
  newElement <- match configFn with
                | Some f => f newElement
                | None => Done newElement
                end ;;
  Done (addChild [ChildNode (asNode newElement)] element).

Definition addClass (className : CSSClassValue) (element : Element) : Outcome Element :=
  match className with
  | ManyClasses classNames => classList_add classNames element
  | OneClass name => classList_add [name] element
  end.

Definition removeClass (className : CSSClassValue) (element : Element) : Outcome Element :=
  match className with
  | ManyClasses classNames => classList_remove classNames element
  | OneClass name => classList_remove [name] element
  end.

Definition toggleClass (className : string) (element : Element) : Outcome Element :=
  classList_toggle className element.

Definition hasClass (className : string) (element : Element) : bool :=
  contains className (classList element).

(** [setAttr(name, value)], the overload with a name; a missing value is
    written as the string [undefined]. *)
Definition setAttr (name : string) (value : option string) (element : Element)
  : Outcome Element :=
  setAttribute name (match value with Some v => v | None => "undefined" end) element.

Definition setText (text : string) (element : Element) : Element :=
  setTextContent text element.

Definition empty (element : Element) : Element := clearChildren element.

(** [ElementBuilder.div(className)] and [ElementBuilder.span(text,
    className)]: an argument that is missing or empty is passed over. *)
Definition truthyString (s : option string) : option string :=
  match s with
  | Some v => if String.eqb v "" then None else Some v
  | None => None
  end.

Definition div (className : option string) : Outcome Element :=
  let el := create "div" in
  match truthyString className with
  | Some name => addClass (OneClass name) el
  | None => Done el
  end.

Definition span (text className : option string) : Outcome Element :=
  let el := create "span" in
  let el := match truthyString text with
            | Some t => setText t el
            | None => el
            end in
  match truthyString className with
  | Some name => addClass (OneClass name) el
  | None => Done el
  end.

(** The methods that [ElementBuilder.enhance] puts on an element. *)
Definition enhanced_addClass (className : string) (element : Element) : Outcome Element :=
  classList_add [className] element.

Definition enhanced_hasClass (className : string) (element : Element) : bool :=
  contains className (classList element).

Definition enhanced_empty (element : Element) : Element := clearChildren element.

(** Its [addChild] makes a text node of a string and hands anything else
    to [appendChild], which raises a [TypeError] on what is not a node;
    the children before it have been appended by then. *)
Fixpoint enhanced_addChild (children : list ChildElement) (element : Element)
  : Completion * Element :=
  match children with
  | [] => (Normal, element)
  | child :: rest =>
      match child with
      | ChildString s => enhanced_addChild rest (appendChild (TextNode s) element)
      | ChildNode node => enhanced_addChild rest (appendChild node element)
      | _ => (Abrupt (ErrorObject (exceptionMessage "TypeError")), element)
      end
  end.
End Dom.

(** ** The widget class *)

(** The options as given to the constructor, every one optional, and as
    the widget keeps them. *)
Module Given.
Record CouponsWidgetOptions : Type := {
  containerId : option string;
  isin : option string;
  emptyMessage : option string;
  loadingMessage : option string;
  data : option (list CouponData)
}.
End Given.

Module Kept.
Record CouponsWidgetOptions : Type := {
  containerId : string;
  isin : option string;
  emptyMessage : string;
  loadingMessage : string;
  data : list CouponData
}.
End Kept.

(** The fields of a [CouponsWidget]. *)
Record CouponsWidget : Type := {
  options : Kept.CouponsWidgetOptions;
  container : option Element;
  data : list CouponData
}.

(** How the request to MOEX ends: the fetch or the reading of the body
    fails with a thrown value; the response is not [ok]; or the body is
    read and [data[1]?.coupons] is a list of rows or nullish. *)
Inductive FetchOutcome : Type :=
| Rejected (error : Thrown)
| ResponseNotOk
| Coupons (coupons : option (list MoexCoupon)).

(** Where [loadData] stands when it first yields: finished, or waiting
    for the reply to the request of the given address. *)
Inductive LoadStep : Type :=
| Finished (completion : Completion) (widget : CouponsWidget)
| Awaiting (url : string) (widget : CouponsWidget).

Section WidgetClass.
Context {host : DateHost} {dom : DomHost}.

Definition withContainer (c : option Element) (w : CouponsWidget) : CouponsWidget :=
  {| options := options w; container := c; data := data w |}.

Definition withData (d : list CouponData) (w : CouponsWidget) : CouponsWidget :=
  {| options := options w; container := container w; data := d |}.

Definition withIsin (i : option string) (w : CouponsWidget) : CouponsWidget :=
  {| options := {| Kept.containerId := Kept.containerId (options w);
                   Kept.isin := i;
                   Kept.emptyMessage := Kept.emptyMessage (options w);
                   Kept.loadingMessage := Kept.loadingMessage (options w);
                   Kept.data := Kept.data (options w) |};
     container := container w;
     data := data w |}.

(** [elems()]: the parts of the view. *)
Definition elems_baseContainer : Outcome Element := div (Some "coupons-list").

Definition elems_listItem (item : CouponData) : Outcome Element :=
  itemElement <- addClass (OneClass "list-item") (create "div") ;;
  itemElement <- (if current item then addClass (OneClass "current") itemElement
                  else Done itemElement) ;;
  itemElement <- (if disabled item then addClass (OneClass "disabled") itemElement
                  else Done itemElement) ;;
  leftBlock <- div None ;;
  dateElem <- div (Some "elem") ;;
  dateElem <- addClass (OneClass "payment-date") dateElem ;;
  dateTitle <- span (Some "Дата выплаты:") (Some "elem-title") ;;
  dateValue <- span (Some (paymentDate item)) (Some "elem-value") ;;
  let dateElem := addChild [ChildNode (asNode dateTitle); ChildNode (asNode dateValue)]
                    dateElem in
  let leftBlock := addChild [ChildNode (asNode dateElem)] leftBlock in
  rightBlock <- div None ;;
  rateElem <- div (Some "elem") ;;
  rateElem <- addClass (OneClass "rate") rateElem ;;
  rateTitle <- span (Some "Ставка:") (Some "elem-title") ;;
  rateValue <- span (Some (rate item)) (Some "elem-value") ;;
  let rateElem := addChild [ChildNode (asNode rateTitle); ChildNode (asNode rateValue)]
                    rateElem in
  amountElem <- div (Some "elem") ;;
  amountElem <- addClass (OneClass "amount") amountElem ;;
  amountTitle <- span (Some "Сумма 1 облигации:") (Some "elem-title") ;;
  amountValue <- span (Some (amount item)) (Some "elem-value") ;;
  let amountElem := addChild [ChildNode (asNode amountTitle); ChildNode (asNode amountValue)]
                      amountElem in
  let rightBlock := addChild [ChildNode (asNode rateElem); ChildNode (asNode amountElem)]
                      rightBlock in
  Done (addChild [ChildNode (asNode leftBlock); ChildNode (asNode rightBlock)] itemElement).

Definition elems_emptyElem (w : CouponsWidget) : Outcome Element :=
  el <- addClass (OneClass "empty") (create "div") ;;
  Done (setText (Kept.emptyMessage (options w)) el).

Definition elems_loadingElem (w : CouponsWidget) : Outcome Element :=
  el <- addClass (OneClass "loading") (create "div") ;;
  Done (setText (Kept.loadingMessage (options w)) el).

Definition elems_errorElem (message : string) : Outcome Element :=
  el <- addClass (OneClass "error") (create "div") ;;
  Done (setText ("Ошибка: " ++ message) el).

(** The [forEach] of [render]: one list item per entry, in order. *)
Fixpoint addListItems (items : list CouponData) (baseContainer : Element)
  : Outcome Element :=
  match items with
  | [] => Done baseContainer
  | item :: rest =>
      listItem <- elems_listItem item ;;
      addListItems rest (addChild [ChildNode (asNode listItem)] baseContainer)
  end.

(** The list that [render] builds before it puts it into the container. *)
Definition renderedList (w : CouponsWidget) : Outcome Element :=
  baseContainer <- elems_baseContainer ;;
  if (List.length (data w) =? 0)%nat
  then emptyElem <- elems_emptyElem w ;;
       Done (addChild [ChildNode (asNode emptyElem)] baseContainer)
  else addListItems (data w) baseContainer.

(** Put what was built into the emptied container; a throw while
    building leaves the container empty. *)
Definition fill (built : Outcome Element) (emptied : Element) (w : CouponsWidget)
  : Completion * CouponsWidget :=
  match built with
  | Raised error => (Abrupt error, withContainer (Some emptied) w)
  | Done element =>
      let (completion, filled) :=
        enhanced_addChild [ChildNode (asNode element)] emptied in
      (completion, withContainer (Some filled) w)
  end.

(** [render]. *)
Definition render (w : CouponsWidget) : Completion * CouponsWidget :=
  match container w with
  | None => (Normal, w)
  | Some c => fill (renderedList w) (enhanced_empty c) w
  end.

(** [showLoading] and [showError]. *)
Definition showLoading (w : CouponsWidget) : Completion * CouponsWidget :=
  match container w with
  | None => (Normal, w)
  | Some c => fill (elems_loadingElem w) (enhanced_empty c) w
  end.

Definition showError (message : string) (w : CouponsWidget) : Completion * CouponsWidget :=
  match container w with
  | None => (Normal, w)
  | Some c => fill (elems_errorElem message) (enhanced_empty c) w
  end.

(** [iniBaseContainer]; [found] is what [document.getElementById] gives
    for the container id.  Appending a new container to the body changes
    the document, not the element. *)
Definition iniBaseContainer (found : option Element) (w : CouponsWidget)
  : Completion * CouponsWidget :=
  let made :=
    match found with
    | Some c => Done c
    | None => setAttr "id" (Some (Kept.containerId (options w))) (create "div")
    end in
  match made with
  | Raised error => (Abrupt error, w)
  | Done c =>
      if negb (enhanced_hasClass "coupons-widget" c)
      then match enhanced_addClass "coupons-widget" c with
           | Done c' => (Normal, withContainer (Some c') w)
           | Raised error => (Abrupt error, withContainer (Some c) w)
           end
      else (Normal, withContainer (Some c) w)
  end.

(** The address of the request. *)
Definition moexUrl (isin : string) : string :=
  "https://iss.moex.com/iss/securities/" ++ isin
  ++ "/bondization.json?iss.json=extended&iss.meta=off&iss.only=coupons&lang=ru&limit=unlimited".

(** [loadFromMOEX] from the reply on; [currentDate] is the midnight of
    the day on which the reply is handled. *)
Definition loadFromMOEX_resume (currentDate : Z) (outcome : FetchOutcome)
    (w : CouponsWidget) : Completion * CouponsWidget :=
  match outcome with
  | Rejected error => (Abrupt error, w)
  | ResponseNotOk => (Abrupt (ErrorObject "Ошибка загрузки данных с MOEX"), w)
  | Coupons coupons =>
      let coupons := match coupons with Some l => l | None => [] end in
      render (withData (convertMOEXData currentDate coupons) w)
  end.

(** The [catch] of [loadData]. *)
Definition errorMessage (error : Thrown) : string :=
  match error with
  | ErrorObject message => message
  | NotAnError => "Неизвестная ошибка"
  end.

Definition caught (step : Completion * CouponsWidget) : Completion * CouponsWidget :=
  match step with
  | (Normal, w) => (Normal, w)
  | (Abrupt error, w) => showError (errorMessage error) w
  end.

(** [loadData] up to its first [await]. *)
Definition loadData_begin (w : CouponsWidget) : LoadStep :=
  match showLoading w with
  | (Abrupt error, w') =>
      let (completion, w'') := caught (Abrupt error, w') in
      Finished completion w''
  | (Normal, w') =>
      match truthyString (Kept.isin (options w')) with
      | Some isin => Awaiting (moexUrl isin) w'
      | None => Finished Normal w'
      end
  end.

(** [loadData] from the reply on. *)
Definition loadData_resume (currentDate : Z) (outcome : FetchOutcome)
    (w : CouponsWidget) : Completion * CouponsWidget :=
  caught (loadFromMOEX_resume currentDate outcome w).

(** [loadData] as a whole, the reply given. *)
Definition loadData (currentDate : Z) (outcome : FetchOutcome) (w : CouponsWidget)
  : Completion * CouponsWidget :=
  match loadData_begin w with
  | Finished completion w' => (completion, w')
  | Awaiting _ w' => loadData_resume currentDate outcome w'
  end.

(** [load(isinOrUrl)]. *)
Definition load (isinOrUrl : string) (currentDate : Z) (outcome : FetchOutcome)
    (w : CouponsWidget) : Completion * CouponsWidget :=
  loadData currentDate outcome (withIsin (Some isinOrUrl) w).

(** [updateData(newData)]. *)
Definition updateData (newData : list CouponData) (w : CouponsWidget)
  : Completion * CouponsWidget :=
  render (withData newData w).

(** [destroy()]. *)
Definition destroy (w : CouponsWidget) : CouponsWidget :=
  match container w with
  | Some c => withContainer (Some (enhanced_empty c)) w
  | None => w
  end.

Definition getDefaultData : list CouponData := [].

(** The constructor up to the call of [init]. *)
Definition newWidget (given : Given.CouponsWidgetOptions) : CouponsWidget :=
  let kept :=
    {| Kept.containerId := match truthyString (Given.containerId given) with
                           | Some v => v
                           | None => "coupons-widget"
                           end;
       Kept.isin := truthyString (Given.isin given);
       Kept.emptyMessage := match truthyString (Given.emptyMessage given) with
                            | Some v => v
                            | None => "Данных нет"
                            end;
       Kept.loadingMessage := match truthyString (Given.loadingMessage given) with
                              | Some v => v
                              | None => "Загрузка данных"
                              end;
       Kept.data := match Given.data given with
                    | Some d => d
                    | None => []
                    end |} in
  {| options := kept; container := None; data := Kept.data kept |}.

(** [init], and with it the constructor, up to the first [await]: the
    container, the first rendering and, with an ISIN, the start of the
    load, whose promise nobody awaits. *)
Definition init (found : option Element) (w : CouponsWidget) : LoadStep :=
  match iniBaseContainer found w with
  | (Abrupt error, w') => Finished (Abrupt error) w'
  | (Normal, w') =>
      match render w' with
      | (Abrupt error, w'') => Finished (Abrupt error) w''
      | (Normal, w'') =>
          match truthyString (Kept.isin (options w'')) with
          | Some _ =>
              match loadData_begin w'' with
              | Finished _ w''' => Finished Normal w'''
              | Awaiting url w''' => Awaiting url w'''
              end
          | None => Finished Normal w''
          end
      end
  end.

Definition construct (given : Given.CouponsWidgetOptions) (found : option Element)
  : LoadStep :=
  init found (newWidget given).
End WidgetClass.

(** ** Automatic initialisation *)

(** The options that [autoInit] derives from a marked container. *)
Record AutoOptions : Type := {
  auto_containerId : string;
  auto_isin : option string
}.

Section AutoInit.
Context {dom : DomHost}.

(** [htmlContainer.id = value]. *)
Definition setElementId (value : string) (element : Element) : Element :=
  {| tagName := tagName element;
     attributes := putAttribute "id" value (attributes element);
     classList := classList element;
     childNodes := childNodes element |}.

(** The body of the [forEach] of [autoInit]: the options of one
    container, the container with its id, and the counter afterwards. *)
Definition autoInitOne (widgetCounter : Z) (htmlContainer : Element)
  : AutoOptions * Element * Z :=
  let hasId := negb (String.eqb (elementId htmlContainer) "") in
  let widgetCounter' := if hasId then widgetCounter else widgetCounter + 1 in
  let options :=
    {| auto_containerId :=
         if hasId then elementId htmlContainer
         else "coupons-widget-" ++ numberToString (Some widgetCounter');
       auto_isin := truthyString (getAttribute "data-isin" (attributes htmlContainer)) |} in
  let htmlContainer' :=
    if String.eqb (elementId htmlContainer) ""
    then setElementId (auto_containerId options) htmlContainer
    else htmlContainer in
  (options, htmlContainer', widgetCounter').

(** [autoInit] over the containers that [querySelectorAll] finds, up to
    the construction of the widgets. *)
Fixpoint autoInitFrom (widgetCounter : Z) (containers : list Element)
  : list (AutoOptions * Element) * Z :=
  match containers with
  | [] => ([], widgetCounter)
  | htmlContainer :: rest =>
      let '(options, htmlContainer', widgetCounter') :=
        autoInitOne widgetCounter htmlContainer in
      let (done, final) := autoInitFrom widgetCounter' rest in
      ((options, htmlContainer') :: done, final)
  end.

Definition autoInit (containers : list Element) : list (AutoOptions * Element) * Z :=
  autoInitFrom 0 containers.
End AutoInit.

(** ** The view, described *)

(** The children that hold a text: one text node, none for the empty
    string. *)
Definition textChildren (text : string) : list Node :=
  if String.eqb text "" then [] else [TextNode text].

Definition spanNode (text className : string) : Node :=
  ElementNode "span" [] [className] (textChildren text).

(** A [div] of one class that holds a message. *)
Definition messageNode (className text : string) : Node :=
  ElementNode "div" [] [className] (textChildren text).

(** A titled value: [div.elem.<kind>] with the title and the value. *)
Definition valueNode (kind title value : string) : Node :=
  ElementNode "div" [] ["elem"; kind]
    [spanNode title "elem-title"; spanNode value "elem-value"].

Definition itemClasses (item : CouponData) : list string :=
  ("list-item" :: (if current item then ["current"] else [])
     ++ (if disabled item then ["disabled"] else []))%list.

(** The list item of an entry. *)
Definition itemElement (item : CouponData) : Element :=
  {| tagName := "div";
     attributes := [];
     classList := itemClasses item;
     childNodes :=
       [ ElementNode "div" [] []
           [valueNode "payment-date" "Дата выплаты:" (paymentDate item)];
         ElementNode "div" [] []
           [valueNode "rate" "Ставка:" (rate item);
            valueNode "amount" "Сумма 1 облигации:" (amount item)] ] |}.

Definition itemNode (item : CouponData) : Node := asNode (itemElement item).

(** The list of the entries, a placeholder when there are none. *)
Definition listNode (emptyMessage : string) (entries : list CouponData) : Node :=
  ElementNode "div" [] ["coupons-list"]
    (match entries with
     | [] => [messageNode "empty" emptyMessage]
     | _ :: _ => map itemNode entries
     end).

(** The element with other children. *)
Definition withChildren (nodes : list Node) (element : Element) : Element :=
  {| tagName := tagName element;
     attributes := attributes element;
     classList := classList element;
     childNodes := nodes |}.

(** The widget that shows the given node in its container and nothing
    else. *)
Definition showing (node : Node) (w : CouponsWidget) : CouponsWidget :=
  {| options := options w;
     container := option_map (withChildren [node]) (container w);
     data := data w |}.

(** What the operations of the widget leave alone: the options, and the
    tag, the attributes and the classes of the container. *)
Definition frameOf (element : Element)
  : string * list (string * string) * list string :=
  (tagName element, attributes element, classList element).

Definition keepsFrame (w w' : CouponsWidget) : Prop :=
  options w' = options w /\
  option_map frameOf (container w') = option_map frameOf (container w).

(** The containers that come without an id. *)
Definition withoutId (containers : list Element) : list Element :=
  filter (fun c => String.eqb (elementId c) "") containers.

(** The children of a node that carry a class. *)
Definition childrenWithClass (className : string) (node : Node) : list Node :=
  filter (fun child => contains className (classesOf child)) (childrenOf node).


(** ** Sample widgets and pages *)

Definition bondContainer : Element :=
  {| tagName := "div";
     attributes := [("id", "bond"); ("data-isin", "RU000A0JX0J2")];
     classList := ["card"];
     childNodes := [TextNode "old"] |}.

Definition bondWidget : CouponsWidget :=
  {| options := {| Kept.containerId := "bond";
                   Kept.isin := Some "RU000A0JX0J2";
                   Kept.emptyMessage := "Данных нет";
                   Kept.loadingMessage := "Загрузка данных";
                   Kept.data := [] |};
     container := Some bondContainer;
     data := [] |}.

Definition idleWidget : CouponsWidget :=
  {| options := {| Kept.containerId := "bond";
                   Kept.isin := None;
                   Kept.emptyMessage := "Данных нет";
                   Kept.loadingMessage := "Загрузка данных";
                   Kept.data := [] |};
     container := Some bondContainer;
     data := [] |}.

Definition noOptions : Given.CouponsWidgetOptions :=
  {| Given.containerId := None; Given.isin := None; Given.emptyMessage := None;
     Given.loadingMessage := None; Given.data := None |}.

(** Three marked containers: without an id, with one, without one. *)
Definition markedContainers : list Element :=
  [ {| tagName := "div"; attributes := [("data-coupons-widget", "")];
       classList := []; childNodes := [] |};
    {| tagName := "div";
       attributes := [("data-coupons-widget", ""); ("id", "mine");
                      ("data-isin", "RU000A0JX0J2")];
       classList := []; childNodes := [] |};
    {| tagName := "div"; attributes := [("data-coupons-widget", "")];
       classList := []; childNodes := [] |} ].

(** A concrete DOM host: every attribute name without white space is
    accepted, and the message of an exception is its name. *)
Definition plainDom : DomHost :=
  {| exceptionMessage := fun name => name;
     validAttributeName := fun name =>
       negb (String.eqb name "") && negb (hasAsciiWhitespace name) |}.

(** * Properties *)

(** ** Arrays *)

Section ArrayFacts.
Context {A : Type}.
Implicit Types (l : list A) (p : A -> bool).

Lemma len_nonneg l : 0 <= len l.
Proof. unfold len. lia. Qed.

Lemma len_map {B : Type} (f : A -> B) l : len (map f l) = len l.
Proof. unfold len. now rewrite length_map. Qed.

(** [findIndexFrom] answers [-1] exactly when no element satisfies the
    callback; otherwise it answers the position of the first that
    does. *)
Lemma findIndexFrom_none p l k :
  0 <= k ->
  findIndexFrom k p l = -1 <-> existsb p l = false.
Proof.
  revert k. induction l as [|x rest IH]; intros k Hk; simpl.
  - tauto.
  - destruct (p x); simpl.
    + split; [lia | discriminate].
    + apply IH. lia.
Qed.

Lemma findIndexFrom_some p l k :
  existsb p l = true ->
  exists n x,
    findIndexFrom k p l = k + Z.of_nat n /\
    nth_error l n = Some x /\ p x = true /\
    Forall (fun y => p y = false) (firstn n l).
Proof.
  revert k. induction l as [|x rest IH]; intros k Hex; simpl in *.
  - discriminate.
  - destruct (p x) eqn:Hpx.
    + exists 0%nat, x. simpl. repeat split; auto. lia.
    + simpl in Hex. destruct (IH (k + 1) Hex) as (n & y & Hi & Hn & Hy & Hbefore).
      exists (S n), y. simpl. repeat split; auto. lia.
Qed.

Lemma findIndex_range p l :
  findIndex p l = -1 \/ 0 <= findIndex p l < len l.
Proof.
  unfold findIndex. destruct (existsb p l) eqn:Hex.
  - right. destruct (findIndexFrom_some p l 0 Hex) as (n & x & Hi & Hn & _).
    assert (n < List.length l)%nat by (apply nth_error_Some; congruence).
    unfold len. lia.
  - left. apply findIndexFrom_none; [lia | assumption].
Qed.

(** A slice within bounds. *)
Lemma slice_inbounds l s e :
  0 <= s -> s <= e -> e <= len l ->
  slice l s e = firstn (Z.to_nat (e - s)) (skipn (Z.to_nat s) l).
Proof.
  intros Hs Hse He. unfold slice.
  destruct (Z.ltb_spec s 0); [lia|].
  destruct (Z.ltb_spec e 0); [lia|].
  rewrite !Z.min_l by lia. reflexivity.
Qed.

Lemma slice_length l s e :
  0 <= s -> s <= e -> e <= len l ->
  len (slice l s e) = e - s.
Proof.
  intros Hs Hse He. rewrite slice_inbounds by assumption.
  unfold len in *. rewrite length_firstn, length_skipn. lia.
Qed.

Lemma slice_nth l s e n :
  0 <= s -> s <= e -> e <= len l ->
  (Z.of_nat n < e - s) ->
  nth_error (slice l s e) n = nth_error l (Z.to_nat s + n).
Proof.
  intros Hs Hse He Hn. rewrite slice_inbounds by assumption.
  rewrite nth_error_firstn.
  destruct (Nat.ltb_spec n (Z.to_nat (e - s))); [|lia].
  apply nth_error_skipn.
Qed.

Lemma In_firstn (n : nat) l x : In x (firstn n l) -> In x l.
Proof.
  intros Hin. rewrite <- (firstn_skipn n l). apply in_or_app. now left.
Qed.

Lemma In_skipn (n : nat) l x : In x (skipn n l) -> In x l.
Proof.
  intros Hin. rewrite <- (firstn_skipn n l). apply in_or_app. now right.
Qed.

Lemma slice_incl l s e x : In x (slice l s e) -> In x l.
Proof.
  unfold slice. intros Hin.
  apply In_firstn in Hin. now apply In_skipn in Hin.
Qed.

Lemma slice_nil s e : slice (@nil A) s e = [].
Proof. unfold slice. now rewrite skipn_nil, firstn_nil. Qed.

Lemma NoDup_firstn {B : Type} (n : nat) (m : list B) : NoDup m -> NoDup (firstn n m).
Proof.
  intros Hnd. rewrite <- (firstn_skipn n m) in Hnd.
  now apply NoDup_app_remove_r in Hnd.
Qed.

Lemma NoDup_skipn {B : Type} (n : nat) (m : list B) : NoDup m -> NoDup (skipn n m).
Proof.
  intros Hnd. rewrite <- (firstn_skipn n m) in Hnd.
  now apply NoDup_app_remove_l in Hnd.
Qed.

(** The sort rearranges and neither drops nor repeats. *)
Variable comparefn : A -> A -> Number.

Lemma sortInsert_perm x l : Permutation (sortInsert comparefn x l) (x :: l).
Proof.
  induction l as [|y rest IH]; simpl.
  - reflexivity.
  - destruct (sortCompare comparefn x y <=? 0).
    + reflexivity.
    + rewrite IH. apply perm_swap.
Qed.

Lemma sort_perm l : Permutation (sort comparefn l) l.
Proof.
  induction l as [|x rest IH]; simpl.
  - reflexivity.
  - rewrite sortInsert_perm. now constructor.
Qed.

Lemma sort_len l : len (sort comparefn l) = len l.
Proof. unfold len. now rewrite (Permutation_length (sort_perm l)). Qed.
End ArrayFacts.

(** ** The window *)

Section WindowFacts.
Context {host : DateHost}.
Implicit Types (currentDate : Z) (couponsData : list MoexCoupon).

Lemma sortedCoupons_perm couponsData :
  Permutation (sortedCoupons couponsData) couponsData.
Proof. apply sort_perm. Qed.

Lemma sortedCoupons_len couponsData :
  len (sortedCoupons couponsData) = len couponsData.
Proof. apply sort_len. Qed.

Lemma existsb_perm (p : MoexCoupon -> bool) (l l' : list MoexCoupon) :
  Permutation l l' -> existsb p l = existsb p l'.
Proof.
  intros Hperm.
  destruct (existsb p l) eqn:Hl; destruct (existsb p l') eqn:Hl'; auto.
  - apply existsb_exists in Hl as (x & Hin & Hp).
    rewrite <- Hl'. symmetry. apply existsb_exists. exists x. split; auto.
    now apply (Permutation_in _ Hperm).
  - apply existsb_exists in Hl' as (x & Hin & Hp).
    rewrite <- Hl. apply existsb_exists. exists x. split; auto.
    now apply (Permutation_in _ (Permutation_sym Hperm)).
Qed.

Lemma hasAnchor_sorted currentDate couponsData :
  existsb (isUpcoming currentDate) (sortedCoupons couponsData)
  = hasAnchor currentDate couponsData.
Proof. apply existsb_perm, sortedCoupons_perm. Qed.

(** With an anchor, [firstUpcomingIndex] is the position in the sorted
    array of the first record on or after today. *)
Lemma firstUpcomingIndex_anchor currentDate couponsData :
  hasAnchor currentDate couponsData = true ->
  exists n c,
    firstUpcomingIndex currentDate couponsData = Z.of_nat n /\
    nth_error (sortedCoupons couponsData) n = Some c /\
    isUpcoming currentDate c = true /\
    Forall (fun y => isUpcoming currentDate y = false)
      (firstn n (sortedCoupons couponsData)) /\
    Z.of_nat n < len couponsData.
Proof.
  intros Hanchor. rewrite <- hasAnchor_sorted in Hanchor.
  destruct (findIndexFrom_some _ _ 0 Hanchor) as (n & c & Hi & Hn & Hc & Hbefore).
  exists n, c. unfold firstUpcomingIndex, findIndex. rewrite Hi.
  destruct (Z.eqb_spec (0 + Z.of_nat n) (-1)); [lia|].
  split; [lia|]. split; [assumption|]. split; [assumption|].
  split; [assumption|].
  rewrite <- sortedCoupons_len.
  assert (n < List.length (sortedCoupons couponsData))%nat
    by (apply nth_error_Some; congruence).
  unfold len. lia.
Qed.

(** Without one it is the length of the array. *)
Lemma firstUpcomingIndex_no_anchor currentDate couponsData :
  hasAnchor currentDate couponsData = false ->
  firstUpcomingIndex currentDate couponsData = len couponsData.
Proof.
  intros Hnone. rewrite <- hasAnchor_sorted in Hnone.
  unfold firstUpcomingIndex, findIndex.
  apply (findIndexFrom_none _ _ 0) in Hnone; [|lia].
  rewrite Hnone. simpl. apply sortedCoupons_len.
Qed.

Lemma firstUpcomingIndex_range currentDate couponsData :
  0 <= firstUpcomingIndex currentDate couponsData <= len couponsData.
Proof.
  destruct (hasAnchor currentDate couponsData) eqn:Hanchor.
  - destruct (firstUpcomingIndex_anchor _ _ Hanchor) as (n & c & Hi & _ & _ & _ & Hlt).
    lia.
  - rewrite (firstUpcomingIndex_no_anchor _ _ Hanchor).
    pose proof (len_nonneg couponsData). lia.
Qed.

Lemma hasAnchor_iff_index currentDate couponsData :
  hasAnchor currentDate couponsData = true <->
  firstUpcomingIndex currentDate couponsData < len couponsData.
Proof.
  split.
  - intros Hanchor.
    destruct (firstUpcomingIndex_anchor _ _ Hanchor) as (n & c & Hi & _ & _ & _ & Hlt).
    lia.
  - intros Hlt. destruct (hasAnchor currentDate couponsData) eqn:Hanchor; auto.
    rewrite (firstUpcomingIndex_no_anchor _ _ Hanchor) in Hlt. lia.
Qed.

(** The bounds of the slice are ordered and lie within the array. *)
Lemma window_bounds currentDate couponsData :
  0 <= startIndex currentDate couponsData /\
  startIndex currentDate couponsData <= endIndex currentDate couponsData /\
  endIndex currentDate couponsData <= len (sortedCoupons couponsData).
Proof.
  pose proof (firstUpcomingIndex_range currentDate couponsData) as Hr.
  unfold endIndex, startIndex. rewrite sortedCoupons_len.
  destruct (Z.eqb_spec (Z.max 0 (firstUpcomingIndex currentDate couponsData - 2)) 0);
    lia.
Qed.

Lemma selectedCoupons_len currentDate couponsData :
  len (selectedCoupons currentDate couponsData)
  = endIndex currentDate couponsData - startIndex currentDate couponsData.
Proof.
  destruct (window_bounds currentDate couponsData) as (H0 & H1 & H2).
  unfold selectedCoupons. now apply slice_length.
Qed.

(** The early return on an empty input agrees with the general path. *)
Lemma convertMOEXData_map currentDate couponsData :
  convertMOEXData currentDate couponsData
  = map (toCouponData currentDate (currentCouponDate currentDate couponsData))
      (selectedCoupons currentDate couponsData).
Proof.
  unfold convertMOEXData. destruct couponsData as [|c rest].
  - unfold selectedCoupons, sortedCoupons. cbn [sort].
    now rewrite slice_nil.
  - reflexivity.
Qed.

Lemma convertMOEXData_len currentDate couponsData :
  len (convertMOEXData currentDate couponsData)
  = endIndex currentDate couponsData - startIndex currentDate couponsData.
Proof.
  rewrite convertMOEXData_map, len_map. apply selectedCoupons_len.
Qed.

(** The window length in closed form. *)
Lemma convertMOEXData_len_cases currentDate couponsData :
  let i := firstUpcomingIndex currentDate couponsData in
  len (convertMOEXData currentDate couponsData)
  = if i <=? 2 then Z.min (len couponsData) (i + 5)
    else Z.min (len couponsData) (i + 3) - (i - 2).
Proof.
  intros i. rewrite convertMOEXData_len.
  pose proof (firstUpcomingIndex_range currentDate couponsData) as Hr.
  unfold endIndex, startIndex. rewrite sortedCoupons_len. fold i. fold i in Hr.
  destruct (Z.leb_spec i 2);
    destruct (Z.eqb_spec (Z.max 0 (i - 2)) 0); lia.
Qed.
End WindowFacts.

(** ** The size of the window *)

Section WindowSize.
Context {host : DateHost}.
Implicit Types (currentDate : Z) (couponsData : list MoexCoupon).

(** C1, as amended.  When an anchor exists with at least three records
    before it and at least three after it in sorted order, the window has
    exactly 5 entries. *)
Theorem window_five_with_three_before currentDate couponsData :
  hasAnchor currentDate couponsData = true ->
  3 <= firstUpcomingIndex currentDate couponsData ->
  3 <= len couponsData - (firstUpcomingIndex currentDate couponsData + 1) ->
  len (convertMOEXData currentDate couponsData) = 5.
Proof.
  intros _ Hbefore Hafter.
  pose proof (convertMOEXData_len_cases currentDate couponsData) as Hlen.
  cbv zeta in Hlen. rewrite Hlen.
  destruct (Z.leb_spec (firstUpcomingIndex currentDate couponsData) 2); lia.
Qed.

(** C2, as amended.  When an anchor exists the window never exceeds 5
    entries, unless the anchor sits at sorted index 1 or 2: there the
    forward side is extended to [firstUpcomingIndex + 5] and the window
    may hold 6, respectively 7, entries. *)
Theorem window_bound_with_anchor currentDate couponsData :
  hasAnchor currentDate couponsData = true ->
  (firstUpcomingIndex currentDate couponsData = 0 \/
   3 <= firstUpcomingIndex currentDate couponsData ->
   len (convertMOEXData currentDate couponsData) <= 5) /\
  (firstUpcomingIndex currentDate couponsData = 1 ->
   len (convertMOEXData currentDate couponsData) = Z.min (len couponsData) 6) /\
  (firstUpcomingIndex currentDate couponsData = 2 ->
   len (convertMOEXData currentDate couponsData) = Z.min (len couponsData) 7).
Proof.
  intros _.
  pose proof (convertMOEXData_len_cases currentDate couponsData) as Hlen.
  pose proof (firstUpcomingIndex_range currentDate couponsData) as Hr.
  cbv zeta in Hlen. rewrite Hlen.
  destruct (Z.leb_spec (firstUpcomingIndex currentDate couponsData) 2).
  - repeat split; intros Hi; lia.
  - repeat split; intros Hi; lia.
Qed.

(** C9.  The window holds at most 7 entries, and a window of 6 or 7
    entries occurs only with an anchor at sorted index 1 or 2: the start
    index is then clamped to 0, the window ends at
    [firstUpcomingIndex + 5] or at the end of the array, and at least
    three records follow the anchor. *)
Theorem window_at_most_seven currentDate couponsData :
  len (convertMOEXData currentDate couponsData) <= 7 /\
  (6 <= len (convertMOEXData currentDate couponsData) ->
   hasAnchor currentDate couponsData = true /\
   (firstUpcomingIndex currentDate couponsData = 1 \/
    firstUpcomingIndex currentDate couponsData = 2) /\
   startIndex currentDate couponsData = 0 /\
   len (convertMOEXData currentDate couponsData)
   = Z.min (len couponsData) (firstUpcomingIndex currentDate couponsData + 5) /\
   3 <= len couponsData - (firstUpcomingIndex currentDate couponsData + 1)).
Proof.
  pose proof (convertMOEXData_len_cases currentDate couponsData) as Hlen.
  pose proof (firstUpcomingIndex_range currentDate couponsData) as Hr.
  pose proof (hasAnchor_iff_index currentDate couponsData) as Hanchor.
  cbv zeta in Hlen. rewrite Hlen. unfold startIndex.
  destruct (Z.leb_spec (firstUpcomingIndex currentDate couponsData) 2).
  - split; [lia|]. intros Hsix.
    split; [apply Hanchor; lia|]. repeat split; lia.
  - split; [lia|]. intros Hsix. lia.
Qed.
End WindowSize.

(** ** Classification *)

Section Classification.
Context {host : DateHost}.
Implicit Types (currentDate : Z) (couponsData : list MoexCoupon).

(** C7.  The rules of [getCouponStatus] apply in the order written: a
    coupon whose date string is [currentCouponDate] is [current] whatever
    its date, also when it is today; only a coupon that is not the
    current one is [disabled] when before today, [upcoming] when dated
    today, and without status otherwise. *)
Theorem current_rule_takes_precedence (couponDate : string) currentDate :
  getCouponStatus couponDate currentDate (Some couponDate) = "current" /\
  (forall currentCouponDate t,
      currentCouponDate <> Some couponDate ->
      getTime couponDate = Some t ->
      getCouponStatus couponDate currentDate currentCouponDate
      = if t <? currentDate then "disabled"
        else if t =? currentDate then "upcoming" else "") /\
  (forall currentCouponDate,
      currentCouponDate <> Some couponDate ->
      getTime couponDate = NaN ->
      getCouponStatus couponDate currentDate currentCouponDate = "").
Proof.
  assert (Hneq : forall ccd, ccd <> Some couponDate ->
                             strictEqDate couponDate ccd = false).
  { intros [d|] Hd; simpl; auto.
    destruct (String.eqb_spec couponDate d); congruence. }
  unfold getCouponStatus. split; [|split].
  - simpl. now rewrite String.eqb_refl.
  - intros ccd t Hd Ht. rewrite (Hneq _ Hd), Ht. simpl.
    destruct (t <? currentDate); reflexivity.
  - intros ccd Hd Ht. rewrite (Hneq _ Hd), Ht. reflexivity.
Qed.

Lemma getCouponStatus_current (couponDate : string) currentDate ccd :
  String.eqb (getCouponStatus couponDate currentDate ccd) "current"
  = strictEqDate couponDate ccd.
Proof.
  unfold getCouponStatus.
  destruct (strictEqDate couponDate ccd); [reflexivity|].
  destruct (num_lt _ _); [reflexivity|].
  destruct (num_eq _ _); reflexivity.
Qed.

Lemma getCouponStatus_disabled (couponDate : string) currentDate ccd :
  String.eqb (getCouponStatus couponDate currentDate ccd) "disabled"
  = negb (strictEqDate couponDate ccd)
    && num_lt (getTime couponDate) (Some currentDate).
Proof.
  unfold getCouponStatus.
  destruct (strictEqDate couponDate ccd); [reflexivity|].
  destruct (num_lt _ _); [reflexivity|].
  destruct (num_eq _ _); reflexivity.
Qed.

Lemma toCouponData_current currentDate ccd c :
  current (toCouponData currentDate ccd c) = strictEqDate (coupondate c) ccd.
Proof. apply getCouponStatus_current. Qed.

Lemma toCouponData_disabled currentDate ccd c :
  disabled (toCouponData currentDate ccd c)
  = negb (strictEqDate (coupondate c) ccd)
    && num_lt (getTime (coupondate c)) (Some currentDate).
Proof. apply getCouponStatus_disabled. Qed.

Lemma countCurrent_map currentDate ccd (window : list MoexCoupon) :
  countCurrent (map (toCouponData currentDate ccd) window)
  = List.length (filter (fun c => strictEqDate (coupondate c) ccd) window).
Proof.
  unfold countCurrent. induction window as [|c rest IH].
  - reflexivity.
  - cbn [map filter]. rewrite toCouponData_current.
    destruct (strictEqDate (coupondate c) ccd); cbn [List.length];
      now rewrite IH.
Qed.

Lemma countCurrent_null currentDate (window : list MoexCoupon) :
  countCurrent (map (toCouponData currentDate None) window) = 0%nat.
Proof.
  rewrite countCurrent_map. induction window; simpl; auto.
Qed.

Lemma filter_date_absent (d : string) (window : list MoexCoupon) :
  ~ In d (map coupondate window) ->
  filter (fun c => strictEqDate (coupondate c) (Some d)) window = [].
Proof.
  induction window as [|c rest IH]; cbn [map filter]; intros Hnot.
  - reflexivity.
  - destruct (strictEqDate (coupondate c) (Some d)) eqn:Heq.
    + exfalso. apply Hnot. left. now apply String.eqb_eq.
    + apply IH. intros Hin. apply Hnot. now right.
Qed.

Lemma filter_date_NoDup (d : string) (window : list MoexCoupon) :
  NoDup (map coupondate window) ->
  (List.length (filter (fun c => strictEqDate (coupondate c) (Some d)) window) <= 1)%nat.
Proof.
  induction window as [|c rest IH]; cbn [map filter]; intros Hnd.
  - simpl. lia.
  - inversion Hnd as [|x xs Hnotin Hrest]; subst.
    destruct (strictEqDate (coupondate c) (Some d)) eqn:Heq.
    + apply String.eqb_eq in Heq. subst d.
      rewrite (filter_date_absent _ _ Hnotin). simpl. lia.
    + now apply IH.
Qed.

Lemma filter_date_present (d : string) (window : list MoexCoupon) c :
  In c window -> coupondate c = d ->
  (1 <= List.length (filter (fun c => strictEqDate (coupondate c) (Some d)) window))%nat.
Proof.
  intros Hin Hd.
  assert (Hf : In c (filter (fun c => strictEqDate (coupondate c) (Some d)) window)).
  { apply filter_In. split; auto. simpl. rewrite Hd. apply String.eqb_refl. }
  destruct (filter _ window); [contradiction | simpl; lia].
Qed.

(** With an anchor: the record at [firstUpcomingIndex] gives
    [currentCouponDate] and lies in the window. *)
Lemma anchor_in_window currentDate couponsData :
  hasAnchor currentDate couponsData = true ->
  exists c,
    at_index (sortedCoupons couponsData) (firstUpcomingIndex currentDate couponsData)
    = Some c /\
    isUpcoming currentDate c = true /\
    currentCouponDate currentDate couponsData = Some (coupondate c) /\
    nth_error (selectedCoupons currentDate couponsData)
      (Z.to_nat (firstUpcomingIndex currentDate couponsData
                 - startIndex currentDate couponsData)) = Some c.
Proof.
  intros Hanchor.
  destruct (firstUpcomingIndex_anchor _ _ Hanchor) as (n & c & Hi & Hn & Hc & _ & Hlt).
  destruct (window_bounds currentDate couponsData) as (H0 & H1 & H2).
  assert (Hat : at_index (sortedCoupons couponsData)
                  (firstUpcomingIndex currentDate couponsData) = Some c).
  { unfold at_index. rewrite Hi.
    destruct (Z.ltb_spec (Z.of_nat n) 0); [lia|]. now rewrite Nat2Z.id. }
  exists c. split; [exact Hat|]. split; [exact Hc|]. split.
  - unfold currentCouponDate. rewrite Hat, sortedCoupons_len.
    destruct (Z.ltb_spec (firstUpcomingIndex currentDate couponsData) (len couponsData));
      [reflexivity | lia].
  - unfold selectedCoupons. rewrite slice_nth; try assumption.
    + rewrite <- Hn. f_equal. unfold startIndex in *. lia.
    + unfold endIndex, startIndex in *. rewrite sortedCoupons_len in *.
      destruct (Z.eqb_spec (Z.max 0 (firstUpcomingIndex currentDate couponsData - 2)) 0);
        lia.
Qed.

Lemma no_anchor_null currentDate couponsData :
  hasAnchor currentDate couponsData = false ->
  currentCouponDate currentDate couponsData = None.
Proof.
  intros Hnone. unfold currentCouponDate.
  rewrite (firstUpcomingIndex_no_anchor _ _ Hnone), sortedCoupons_len.
  now rewrite Z.ltb_irrefl.
Qed.

Lemma selectedCoupons_incl currentDate couponsData c :
  In c (selectedCoupons currentDate couponsData) -> In c couponsData.
Proof.
  intros Hin. apply slice_incl in Hin.
  now apply (Permutation_in _ (sortedCoupons_perm couponsData)).
Qed.

Lemma selectedCoupons_NoDup currentDate couponsData :
  NoDup (map coupondate couponsData) ->
  NoDup (map coupondate (selectedCoupons currentDate couponsData)).
Proof.
  intros Hnd.
  destruct (window_bounds currentDate couponsData) as (H0 & H1 & H2).
  unfold selectedCoupons. rewrite slice_inbounds by assumption.
  rewrite <- firstn_map, <- skipn_map.
  apply NoDup_firstn, NoDup_skipn.
  apply (Permutation_NoDup
           (Permutation_map coupondate
              (Permutation_sym (sortedCoupons_perm couponsData)))).
  exact Hnd.
Qed.
End Classification.

(** ** Which entries are current *)

Section CurrentEntries.
Context {host : DateHost}.
Implicit Types (currentDate : Z) (couponsData : list MoexCoupon).

(** C3, as amended.  An entry is marked current when its date string is
    the anchor's.  Without an anchor no entry is current, also in a
    non-empty window; with an anchor the anchor's entry is in the window
    and is current; when moreover the date strings of the input are
    pairwise distinct it is the only one.  If no entry is current, no
    record of the window is dated on or after today. *)
Theorem current_entries currentDate couponsData :
  map current (convertMOEXData currentDate couponsData)
  = map (fun c => strictEqDate (coupondate c)
                    (currentCouponDate currentDate couponsData))
      (selectedCoupons currentDate couponsData) /\
  (hasAnchor currentDate couponsData = false ->
   countCurrent (convertMOEXData currentDate couponsData) = 0%nat) /\
  (hasAnchor currentDate couponsData = true ->
   (1 <= countCurrent (convertMOEXData currentDate couponsData))%nat /\
   exists c e,
     at_index (sortedCoupons couponsData)
       (firstUpcomingIndex currentDate couponsData) = Some c /\
     nth_error (convertMOEXData currentDate couponsData)
       (Z.to_nat (firstUpcomingIndex currentDate couponsData
                  - startIndex currentDate couponsData)) = Some e /\
     paymentDate e = formatDate (coupondate c) /\
     current e = true) /\
  (hasAnchor currentDate couponsData = true ->
   NoDup (map coupondate couponsData) ->
   countCurrent (convertMOEXData currentDate couponsData) = 1%nat) /\
  (countCurrent (convertMOEXData currentDate couponsData) = 0%nat ->
   forall c, In c (selectedCoupons currentDate couponsData) ->
             isUpcoming currentDate c = false).
Proof.
  assert (Hone : hasAnchor currentDate couponsData = true ->
                 (1 <= countCurrent (convertMOEXData currentDate couponsData))%nat).
  { intros Hanchor.
    destruct (anchor_in_window _ _ Hanchor) as (c & _ & _ & Hccd & Hnth).
    rewrite convertMOEXData_map, countCurrent_map, Hccd.
    apply filter_date_present with (c := c); [|reflexivity].
    eapply nth_error_In. exact Hnth. }
  split; [|split; [|split; [|split]]].
  - rewrite convertMOEXData_map, map_map. apply map_ext.
    intros c. apply toCouponData_current.
  - intros Hnone.
    rewrite convertMOEXData_map, (no_anchor_null _ _ Hnone).
    apply countCurrent_null.
  - intros Hanchor. split; [now apply Hone|].
    destruct (anchor_in_window _ _ Hanchor) as (c & Hat & _ & Hccd & Hnth).
    exists c, (toCouponData currentDate (Some (coupondate c)) c).
    split; [exact Hat|]. split.
    + rewrite convertMOEXData_map, Hccd. now apply map_nth_error.
    + split; [reflexivity|].
      rewrite toCouponData_current. simpl. apply String.eqb_refl.
  - intros Hanchor Hnd. apply Nat.le_antisymm; [|now apply Hone].
    destruct (anchor_in_window _ _ Hanchor) as (c & _ & _ & Hccd & _).
    rewrite convertMOEXData_map, countCurrent_map, Hccd.
    apply filter_date_NoDup. now apply selectedCoupons_NoDup.
  - intros Hzero c Hin.
    destruct (hasAnchor currentDate couponsData) eqn:Hanchor.
    + specialize (Hone eq_refl). lia.
    + destruct (isUpcoming currentDate c) eqn:Hup; [|reflexivity].
      rewrite <- Hanchor. symmetry. apply existsb_exists.
      exists c. split; [|exact Hup].
      now apply (selectedCoupons_incl currentDate).
Qed.
End CurrentEntries.

(** ** Chronological order *)

Section Chronology.
Context {host : DateHost}.
Implicit Types (currentDate : Z) (couponsData : list MoexCoupon).

Lemma dateLe_trans a b c : dateLe a b -> dateLe b c -> dateLe a c.
Proof.
  unfold dateLe.
  destruct (getTime (coupondate a)), (getTime (coupondate b)),
    (getTime (coupondate c)); simpl; try discriminate.
  rewrite !Z.leb_le. lia.
Qed.

(** On valid dates the comparator orders by time. *)
Lemma sortCompare_le a b :
  getTime (coupondate a) <> NaN -> getTime (coupondate b) <> NaN ->
  if sortCompare byCouponDate a b <=? 0 then dateLe a b else dateLe b a.
Proof.
  unfold sortCompare, byCouponDate, dateLe, NaN.
  destruct (getTime (coupondate a)) as [x|], (getTime (coupondate b)) as [y|];
    try congruence.
  intros _ _. simpl.
  destruct (Z.leb_spec (x - y) 0); apply Z.leb_le; lia.
Qed.

Lemma sortInsert_sorted x (l : list MoexCoupon) :
  getTime (coupondate x) <> NaN -> allParse l ->
  StronglySorted dateLe l ->
  StronglySorted dateLe (sortInsert byCouponDate x l).
Proof.
  intros Hx. induction l as [|y rest IH]; intros Hparse Hsorted; simpl.
  - repeat constructor.
  - inversion Hparse as [|? ? Hy Hrest]; subst.
    apply StronglySorted_inv in Hsorted as (Hsrest & Hall).
    pose proof (sortCompare_le x y Hx Hy) as Hcmp.
    destruct (sortCompare byCouponDate x y <=? 0).
    + constructor; [now constructor|].
      constructor; [exact Hcmp|].
      eapply Forall_impl; [|exact Hall].
      intros z Hz. now apply (dateLe_trans x y z).
    + constructor; [now apply IH|].
      eapply Permutation_Forall;
        [apply Permutation_sym, sortInsert_perm|].
      now constructor.
Qed.

Lemma allParse_sorted couponsData :
  allParse couponsData -> allParse (sortedCoupons couponsData).
Proof.
  intros Hparse.
  eapply Permutation_Forall;
    [apply Permutation_sym, sortedCoupons_perm | exact Hparse].
Qed.

(** The sorted copy is chronological when every date parses. *)
Lemma sortedCoupons_sorted couponsData :
  allParse couponsData -> StronglySorted dateLe (sortedCoupons couponsData).
Proof.
  unfold sortedCoupons.
  induction couponsData as [|c rest IH]; intros Hparse; simpl.
  - constructor.
  - inversion Hparse; subst.
    apply sortInsert_sorted; auto. now apply allParse_sorted.
Qed.

Lemma StronglySorted_skipn {B : Type} (R : B -> B -> Prop) (n : nat) (l : list B) :
  StronglySorted R l -> StronglySorted R (skipn n l).
Proof.
  revert l. induction n as [|n IH]; intros l Hs; simpl; auto.
  destruct l as [|x rest]; auto.
  apply IH. now apply StronglySorted_inv in Hs.
Qed.

Lemma StronglySorted_firstn {B : Type} (R : B -> B -> Prop) (n : nat) (l : list B) :
  StronglySorted R l -> StronglySorted R (firstn n l).
Proof.
  revert l. induction n as [|n IH]; intros l Hs; simpl.
  - constructor.
  - destruct l as [|x rest]; [constructor|].
    apply StronglySorted_inv in Hs as (Hrest & Hall).
    constructor; [now apply IH|].
    apply Forall_forall. intros y Hy.
    rewrite Forall_forall in Hall. apply Hall.
    rewrite <- (firstn_skipn n rest). apply in_or_app. now left.
Qed.

Lemma StronglySorted_nth {B : Type} (R : B -> B -> Prop) (l : list B) :
  StronglySorted R l ->
  forall (i j : nat) (a b : B),
    (i < j)%nat -> nth_error l i = Some a -> nth_error l j = Some b -> R a b.
Proof.
  induction 1 as [|x rest Hs IH Hall]; intros i j a b Hij Ha Hb.
  - destruct i; discriminate.
  - destruct j as [|j]; [lia|]. simpl in Hb.
    destruct i as [|i]; simpl in Ha.
    + injection Ha as <-. rewrite Forall_forall in Hall.
      apply Hall. eapply nth_error_In. exact Hb.
    + apply (IH i j); auto. lia.
Qed.



(** C8, as amended.  When every date of the input parses, the entries
    come out in the order of a window that is chronologically
    non-decreasing. *)
Theorem output_chronological currentDate couponsData :
  allParse couponsData ->
  convertMOEXData currentDate couponsData
  = map (toCouponData currentDate (currentCouponDate currentDate couponsData))
      (selectedCoupons currentDate couponsData) /\
  chronological (selectedCoupons currentDate couponsData).
Proof.
  intros Hparse. split; [apply convertMOEXData_map|].
  unfold chronological. apply (StronglySorted_nth dateLe).
  destruct (window_bounds currentDate couponsData) as (H0 & H1 & H2).
  unfold selectedCoupons. rewrite slice_inbounds by assumption.
  apply StronglySorted_firstn, StronglySorted_skipn.
  now apply sortedCoupons_sorted.
Qed.
End Chronology.

(** ** Dates that do not parse *)

Section Unparseable.
Context {host : DateHost}.
Implicit Types (currentDate : Z) (couponsData : list MoexCoupon).

(** [currentCouponDate], when not [null], is a date that parses, on or
    after today. *)
Lemma currentCouponDate_valid currentDate couponsData d :
  currentCouponDate currentDate couponsData = Some d ->
  exists t, getTime d = Some t /\ currentDate <= t.
Proof.
  intros Hccd. destruct (hasAnchor currentDate couponsData) eqn:Hanchor.
  - destruct (anchor_in_window _ _ Hanchor) as (c & _ & Hup & Hc & _).
    rewrite Hc in Hccd. injection Hccd as <-.
    unfold isUpcoming in Hup.
    destruct (getTime (coupondate c)) as [t|]; [|discriminate].
    exists t. split; [reflexivity|]. simpl in Hup.
    rewrite Z.geb_leb in Hup. now apply Z.leb_le.
  - rewrite (no_anchor_null _ _ Hanchor) in Hccd. discriminate.
Qed.

(** C6, as amended.  A record whose date does not parse compares as
    NaN: the search callback is false on it, so it is never the anchor;
    the comparator answers NaN against every record, which the sort
    reads as a tie; and its entry is marked neither current nor
    disabled. *)
Theorem unparseable_date_is_incomparable currentDate (c : MoexCoupon) :
  getTime (coupondate c) = NaN ->
  isUpcoming currentDate c = false /\
  (forall other,
      byCouponDate c other = NaN /\ byCouponDate other c = NaN /\
      sortCompare byCouponDate c other = 0 /\
      sortCompare byCouponDate other c = 0) /\
  (forall couponsData,
      currentCouponDate currentDate couponsData <> Some (coupondate c) /\
      current (toCouponData currentDate
                 (currentCouponDate currentDate couponsData) c) = false /\
      disabled (toCouponData currentDate
                  (currentCouponDate currentDate couponsData) c) = false).
Proof.
  intros Hnan.
  assert (Hcmp : forall other,
             byCouponDate c other = NaN /\ byCouponDate other c = NaN).
  { intros other. unfold byCouponDate. rewrite Hnan.
    split; [reflexivity|]. now destruct (getTime (coupondate other)). }
  split; [|split].
  - unfold isUpcoming. now rewrite Hnan.
  - intros other. destruct (Hcmp other) as (H1 & H2).
    unfold sortCompare. rewrite H1, H2. auto.
  - intros couponsData.
    assert (Hneq : currentCouponDate currentDate couponsData
                   <> Some (coupondate c)).
    { intros Hccd. apply currentCouponDate_valid in Hccd as (t & Ht & _).
      unfold NaN in Hnan. congruence. }
    split; [exact Hneq|].
    rewrite toCouponData_current, toCouponData_disabled, Hnan.
    split; [|apply andb_false_r].
    destruct (currentCouponDate currentDate couponsData) as [d|]; simpl; auto.
    destruct (String.eqb_spec (coupondate c) d); congruence.
Qed.
End Unparseable.

(** ** The legacy script *)

Section Legacy.
Context {host : DateHost}.
Implicit Types (currentDate : Z) (couponsData : list MoexCoupon).

Lemma legacy_convertMOEXData_map currentDate couponsData :
  legacy_convertMOEXData currentDate couponsData
  = map (legacy_toCouponData currentDate (currentCouponDate currentDate couponsData))
      (legacy_selectedCoupons currentDate couponsData).
Proof.
  unfold legacy_convertMOEXData. destruct couponsData as [|c rest].
  - unfold legacy_selectedCoupons, sortedCoupons. cbn [sort].
    now rewrite slice_nil.
  - reflexivity.
Qed.

Lemma legacy_toCouponData_present currentDate ccd c :
  valuesPresent c ->
  legacy_toCouponData currentDate ccd c = toCouponData currentDate ccd c.
Proof.
  intros (Hprc & Hrub). unfold legacy_toCouponData, toCouponData.
  now rewrite Hprc, Hrub.
Qed.

(** C10, as amended.  The two versions give the same entries when the
    window is not clamped at the start of the array
    ([firstUpcomingIndex >= 3]) or the array ends within three records
    of [firstUpcomingIndex], and both printed values of every record of
    the window are truthy. *)
Theorem legacy_agrees currentDate couponsData :
  3 <= firstUpcomingIndex currentDate couponsData \/
  len couponsData <= firstUpcomingIndex currentDate couponsData + 3 ->
  Forall valuesPresent (selectedCoupons currentDate couponsData) ->
  convertMOEXData currentDate couponsData
  = legacy_convertMOEXData currentDate couponsData.
Proof.
  intros Hrange Hvalues.
  assert (Hend : legacy_endIndex currentDate couponsData
                 = endIndex currentDate couponsData).
  { pose proof (firstUpcomingIndex_range currentDate couponsData) as Hr.
    unfold legacy_endIndex, endIndex, startIndex. rewrite sortedCoupons_len.
    destruct (Z.eqb_spec (Z.max 0 (firstUpcomingIndex currentDate couponsData - 2)) 0);
      lia. }
  rewrite convertMOEXData_map, legacy_convertMOEXData_map.
  unfold legacy_selectedCoupons. rewrite Hend. fold (selectedCoupons currentDate couponsData).
  apply map_ext_in. intros c Hin. symmetry.
  apply legacy_toCouponData_present.
  rewrite Forall_forall in Hvalues. now apply Hvalues.
Qed.
End Legacy.

(** ** Inputs in any order *)

Section SortedInput.
Context {host : DateHost}.
Implicit Types (currentDate : Z) (couponsData : list MoexCoupon).

Lemma dateLt_not_dateLe a b : dateLt a b -> dateLe b a -> False.
Proof.
  unfold dateLt, dateLe.
  destruct (getTime (coupondate a)), (getTime (coupondate b));
    simpl; try discriminate.
  rewrite Z.ltb_lt, Z.leb_le. lia.
Qed.

(** A chronological arrangement of records with pairwise distinct times
    is unique. *)
Lemma sorted_perm_unique (l1 l2 : list MoexCoupon) :
  StronglySorted dateLe l1 -> StronglySorted dateLt l2 ->
  Permutation l1 l2 -> l1 = l2.
Proof.
  revert l2. induction l1 as [|a l1 IH]; intros l2 Hs1 Hs2 Hperm.
  - apply Permutation_nil in Hperm. now subst.
  - destruct l2 as [|b l2].
    + apply Permutation_sym, Permutation_nil in Hperm. discriminate.
    + apply StronglySorted_inv in Hs1 as (Hs1 & Hall1).
      apply StronglySorted_inv in Hs2 as (Hs2 & Hall2).
      rewrite Forall_forall in Hall1, Hall2.
      assert (Hab : a = b).
      { assert (Ha : In a (b :: l2))
          by (apply (Permutation_in _ Hperm); now left).
        assert (Hb : In b (a :: l1))
          by (apply (Permutation_in _ (Permutation_sym Hperm)); now left).
        destruct Ha as [Ha|Ha]; [now symmetry|].
        destruct Hb as [Hb|Hb]; [assumption|].
        exfalso. apply (dateLt_not_dateLe b a); auto. }
      subst b. f_equal. apply IH; auto.
      now apply Permutation_cons_inv in Hperm.
Qed.

Lemma sortedCoupons_of_perm couponsData (records : list MoexCoupon) :
  allParse records -> StronglySorted dateLt records ->
  Permutation couponsData records ->
  sortedCoupons couponsData = records.
Proof.
  intros Hparse Hsorted Hperm.
  assert (Hparse' : allParse couponsData).
  { eapply Permutation_Forall; [apply Permutation_sym, Hperm | exact Hparse]. }
  apply sorted_perm_unique; auto.
  - now apply sortedCoupons_sorted.
  - rewrite sortedCoupons_perm. exact Hperm.
Qed.

Lemma toCouponData_display currentDate ccd c :
  toCouponData currentDate ccd c
  = displayEntry c (strictEqDate (coupondate c) ccd)
      (negb (strictEqDate (coupondate c) ccd)
       && num_lt (getTime (coupondate c)) (Some currentDate)).
Proof.
  unfold toCouponData, displayEntry. cbv zeta.
  now rewrite getCouponStatus_current, getCouponStatus_disabled.
Qed.

Lemma strictEqDate_other_time (a b : string) x y :
  getTime a = Some x -> getTime b = Some y -> x <> y ->
  strictEqDate a (Some b) = false.
Proof.
  intros Ha Hb Hxy. simpl.
  destruct (String.eqb_spec a b); [|reflexivity].
  subst b. congruence.
Qed.
End SortedInput.

(** ** Ten records, today after the fifth *)

Section TenRecords.
Context {host : DateHost}.
Variables (currentDate : Z) (r0 r1 r2 r3 r4 r5 r6 r7 r8 r9 : MoexCoupon).
Variables (t0 t1 t2 t3 t4 t5 t6 t7 t8 t9 : Z).
Hypothesis parse0 : getTime (coupondate r0) = Some t0.
Hypothesis parse1 : getTime (coupondate r1) = Some t1.
Hypothesis parse2 : getTime (coupondate r2) = Some t2.
Hypothesis parse3 : getTime (coupondate r3) = Some t3.
Hypothesis parse4 : getTime (coupondate r4) = Some t4.
Hypothesis parse5 : getTime (coupondate r5) = Some t5.
Hypothesis parse6 : getTime (coupondate r6) = Some t6.
Hypothesis parse7 : getTime (coupondate r7) = Some t7.
Hypothesis parse8 : getTime (coupondate r8) = Some t8.
Hypothesis parse9 : getTime (coupondate r9) = Some t9.
Hypothesis increasing :
  t0 < t1 /\ t1 < t2 /\ t2 < t3 /\ t3 < t4 /\ t4 < t5 /\
  t5 < t6 /\ t6 < t7 /\ t7 < t8 /\ t8 < t9.
Hypothesis today_between : t4 < currentDate /\ currentDate <= t5.

Local Ltac with_times :=
  unfold dateLt, isUpcoming, NaN;
  rewrite ?parse0, ?parse1, ?parse2, ?parse3, ?parse4, ?parse5,
    ?parse6, ?parse7, ?parse8, ?parse9.

Lemma ten_records_parse : allParse [r0; r1; r2; r3; r4; r5; r6; r7; r8; r9].
Proof. repeat constructor; with_times; discriminate. Qed.

Lemma ten_records_sorted :
  StronglySorted dateLt [r0; r1; r2; r3; r4; r5; r6; r7; r8; r9].
Proof.
  repeat constructor; with_times; cbn [num_lt]; apply Z.ltb_lt; lia.
Qed.

Lemma ten_records_index couponsData :
  sortedCoupons couponsData = [r0; r1; r2; r3; r4; r5; r6; r7; r8; r9] ->
  firstUpcomingIndex currentDate couponsData = 5.
Proof.
  intros Hsorted. unfold firstUpcomingIndex, findIndex. rewrite Hsorted.
  cbn [findIndexFrom]. with_times. cbn [num_ge]. rewrite !Z.geb_leb.
  repeat match goal with
         | |- context [?a <=? ?b] => destruct (Z.leb_spec a b); try lia
         end.
  reflexivity.
Qed.

(** C5, as amended.  For ten records with strictly increasing dates,
    given in any order, and today after record[4] and not after
    record[5], the window is records[3..7] of the sorted order: five
    entries, records[3..4] disabled, record[5] current, records[6..7]
    with neither flag. *)
Theorem ten_records_window couponsData :
  Permutation couponsData [r0; r1; r2; r3; r4; r5; r6; r7; r8; r9] ->
  convertMOEXData currentDate couponsData
  = [ displayEntry r3 false true; displayEntry r4 false true;
      displayEntry r5 true false;
      displayEntry r6 false false; displayEntry r7 false false ].
Proof.
  intros Hperm.
  pose proof (sortedCoupons_of_perm _ _ ten_records_parse ten_records_sorted Hperm)
    as Hsorted.
  pose proof (ten_records_index _ Hsorted) as Hindex.
  assert (Hstart : startIndex currentDate couponsData = 3)
    by (unfold startIndex; now rewrite Hindex).
  assert (Hend : endIndex currentDate couponsData = 8)
    by (unfold endIndex; now rewrite Hstart, Hindex, Hsorted).
  assert (Hwindow : selectedCoupons currentDate couponsData = [r3; r4; r5; r6; r7])
    by (unfold selectedCoupons; now rewrite Hstart, Hend, Hsorted).
  assert (Hccd : currentCouponDate currentDate couponsData = Some (coupondate r5))
    by (unfold currentCouponDate; now rewrite Hindex, Hsorted).
  rewrite convertMOEXData_map, Hwindow, Hccd. cbn [map].
  rewrite !toCouponData_display.
  rewrite (strictEqDate_other_time _ _ _ _ parse3 parse5) by lia.
  rewrite (strictEqDate_other_time _ _ _ _ parse4 parse5) by lia.
  rewrite (strictEqDate_other_time _ _ _ _ parse6 parse5) by lia.
  rewrite (strictEqDate_other_time _ _ _ _ parse7 parse5) by lia.
  replace (strictEqDate (coupondate r5) (Some (coupondate r5))) with true
    by (simpl; now rewrite String.eqb_refl).
  with_times. cbn [num_lt negb andb].
  repeat match goal with
         | |- context [?a <? ?b] => destruct (Z.ltb_spec a b); try lia
         end.
  reflexivity.
Qed.
End TenRecords.

(** ** Inputs entirely in the past *)

Section AllPast.
Context {host : DateHost}.
Implicit Types (currentDate : Z) (couponsData : list MoexCoupon).

Lemma allPast_no_anchor currentDate couponsData :
  allPast currentDate couponsData ->
  hasAnchor currentDate couponsData = false.
Proof.
  unfold allPast, hasAnchor.
  induction 1 as [|c rest Hc _ IH]; simpl; [reflexivity|].
  rewrite IH, orb_false_r. unfold isUpcoming.
  destruct (getTime (coupondate c)) as [t|]; [|reflexivity].
  simpl in *. rewrite Z.geb_leb. apply Z.ltb_lt in Hc.
  apply Z.leb_gt. exact Hc.
Qed.

(** X10.  What the code does when every record is before today: no anchor,
    [firstUpcomingIndex] is the length, [currentCouponDate] is [null],
    and the window is the last two records of the sorted array (all of
    it when shorter), each disabled and none current. *)
Lemma all_past_window currentDate couponsData :
  allPast currentDate couponsData ->
  firstUpcomingIndex currentDate couponsData = len couponsData /\
  currentCouponDate currentDate couponsData = None /\
  selectedCoupons currentDate couponsData
  = skipn (Z.to_nat (len couponsData - 2)) (sortedCoupons couponsData) /\
  len (convertMOEXData currentDate couponsData) = Z.min (len couponsData) 2 /\
  Forall (fun e => current e = false /\ disabled e = true)
    (convertMOEXData currentDate couponsData).
Proof.
  intros Hpast. pose proof (allPast_no_anchor _ _ Hpast) as Hnone.
  pose proof (firstUpcomingIndex_no_anchor _ _ Hnone) as Hindex.
  pose proof (no_anchor_null _ _ Hnone) as Hccd.
  pose proof (len_nonneg couponsData) as Hlen.
  destruct (window_bounds currentDate couponsData) as (H0 & H1 & H2).
  assert (Hstart : startIndex currentDate couponsData
                   = Z.max 0 (len couponsData - 2))
    by (unfold startIndex; now rewrite Hindex).
  assert (Hend : endIndex currentDate couponsData = len couponsData).
  { unfold endIndex. rewrite Hstart, Hindex, sortedCoupons_len.
    destruct (Z.eqb_spec (Z.max 0 (len couponsData - 2)) 0); lia. }
  split; [exact Hindex|]. split; [exact Hccd|]. split; [|split].
  - unfold selectedCoupons. rewrite slice_inbounds by assumption.
    rewrite Hstart, Hend.
    replace (Z.to_nat (Z.max 0 (len couponsData - 2)))
      with (Z.to_nat (len couponsData - 2)) by lia.
    apply firstn_all2. rewrite length_skipn.
    pose proof (sortedCoupons_len couponsData) as Hl. unfold len in *. lia.
  - rewrite convertMOEXData_len, Hstart, Hend. lia.
  - rewrite convertMOEXData_map, Hccd. apply Forall_forall.
    intros e He. apply in_map_iff in He as (c & <- & Hin).
    rewrite toCouponData_current, toCouponData_disabled. simpl.
    split; [reflexivity|].
    apply (selectedCoupons_incl currentDate) in Hin.
    unfold allPast in Hpast. rewrite Forall_forall in Hpast. now apply Hpast.
Qed.
End AllPast.

(** * Instances on the UTC host *)

Section OnUtcHost.
#[local] Existing Instance utcHost.

Local Ltac decide_by_computation :=
  vm_compute; first [reflexivity | discriminate | (intros; discriminate)].

(** ** Window size *)

(** Today between May and June: five records precede the anchor, four
    follow it, and the window has five entries. *)
Lemma window_five_with_three_before_witness :
  len (convertMOEXData (midnightOf "2024-05-15") monthly2024) = 5.
Proof.
  refine (window_five_with_three_before
            (midnightOf "2024-05-15") monthly2024 _ _ _);
    decide_by_computation.
Defined.

(** C1 fails with exactly two records before the anchor: today between
    February and March, seven records follow the anchor and the window
    has seven entries. *)
Lemma window_seven_with_two_before :
  hasAnchor (midnightOf "2024-02-15") monthly2024 = true /\
  firstUpcomingIndex (midnightOf "2024-02-15") monthly2024 = 2 /\
  len monthly2024 - (firstUpcomingIndex (midnightOf "2024-02-15") monthly2024 + 1) = 7 /\
  len (convertMOEXData (midnightOf "2024-02-15") monthly2024) = 7.
Proof. repeat split; reflexivity. Qed.

Lemma window_bound_with_anchor_witness :
  len (convertMOEXData (midnightOf "2024-05-15") monthly2024) <= 5.
Proof.
  refine (proj1 (window_bound_with_anchor
                   (midnightOf "2024-05-15") monthly2024 _) (or_intror _));
    decide_by_computation.
Defined.

(** C2 fails with the anchor at sorted index 1: today between January
    and February, the window has six entries. *)
Lemma window_six_with_anchor :
  hasAnchor (midnightOf "2024-01-15") monthly2024 = true /\
  firstUpcomingIndex (midnightOf "2024-01-15") monthly2024 = 1 /\
  len (convertMOEXData (midnightOf "2024-01-15") monthly2024) = 6.
Proof. repeat split; reflexivity. Qed.

Lemma window_at_most_seven_witness :
  hasAnchor (midnightOf "2024-02-15") monthly2024 = true /\
  (firstUpcomingIndex (midnightOf "2024-02-15") monthly2024 = 1 \/
   firstUpcomingIndex (midnightOf "2024-02-15") monthly2024 = 2) /\
  startIndex (midnightOf "2024-02-15") monthly2024 = 0 /\
  len (convertMOEXData (midnightOf "2024-02-15") monthly2024)
  = Z.min (len monthly2024)
      (firstUpcomingIndex (midnightOf "2024-02-15") monthly2024 + 5) /\
  3 <= len monthly2024
       - (firstUpcomingIndex (midnightOf "2024-02-15") monthly2024 + 1).
Proof.
  refine (proj2 (window_at_most_seven (midnightOf "2024-02-15") monthly2024) _).
  decide_by_computation.
Defined.

(** ** Current entries *)

Lemma current_entries_witness :
  countCurrent (convertMOEXData (midnightOf "2024-07-01") halfYearly) = 1%nat.
Proof.
  refine (proj1 (proj2 (proj2 (proj2 (current_entries
                                        (midnightOf "2024-07-01") halfYearly)))) _ _).
  - reflexivity.
  - repeat constructor; simpl; intuition discriminate.
Defined.

(** C3 fails on a reply that lists one date twice: both rows carry the
    anchor's date string and both entries are current. *)
Lemma two_current_entries :
  convertMOEXData (midnightOf "2024-07-01") sameDayTwice
  = [ displayEntry (coupon "2024-12-01" "8" "39.89") true false;
      displayEntry (coupon "2024-12-01" "8" "39.89") true false ] /\
  countCurrent (convertMOEXData (midnightOf "2024-07-01") sameDayTwice) = 2%nat.
Proof. split; reflexivity. Qed.

(** C4 on ten records that are all past: the anchor index is the
    length and [currentCouponDate] is [null], no entry is current, but
    the window holds the last two records, September and October, not
    the last five. *)
Lemma all_past_keeps_two :
  firstUpcomingIndex (midnightOf "2025-01-01") monthly2024 = len monthly2024 /\
  currentCouponDate (midnightOf "2025-01-01") monthly2024 = None /\
  convertMOEXData (midnightOf "2025-01-01") monthly2024
  = [ displayEntry (coupon "2024-09-01" "7.5" "37.4") false true;
      displayEntry (coupon "2024-10-01" "7.5" "37.4") false true ] /\
  countCurrent (convertMOEXData (midnightOf "2025-01-01") monthly2024) = 0%nat.
Proof. repeat split; reflexivity. Qed.

(** ** Ten monthly records *)

Lemma ten_records_window_witness :
  convertMOEXData (midnightOf "2024-05-15") (rev monthly2024)
  = [ displayEntry (coupon "2024-04-01" "7.5" "37.4") false true;
      displayEntry (coupon "2024-05-01" "7.5" "37.4") false true;
      displayEntry (coupon "2024-06-01" "7.5" "37.4") true false;
      displayEntry (coupon "2024-07-01" "7.5" "37.4") false false;
      displayEntry (coupon "2024-08-01" "7.5" "37.4") false false ].
Proof.
  refine (ten_records_window (midnightOf "2024-05-15")
            (coupon "2024-01-01" "7.5" "37.4") (coupon "2024-02-01" "7.5" "37.4")
            (coupon "2024-03-01" "7.5" "37.4") (coupon "2024-04-01" "7.5" "37.4")
            (coupon "2024-05-01" "7.5" "37.4") (coupon "2024-06-01" "7.5" "37.4")
            (coupon "2024-07-01" "7.5" "37.4") (coupon "2024-08-01" "7.5" "37.4")
            (coupon "2024-09-01" "7.5" "37.4") (coupon "2024-10-01" "7.5" "37.4")
            (midnightOf "2024-01-01") (midnightOf "2024-02-01")
            (midnightOf "2024-03-01") (midnightOf "2024-04-01")
            (midnightOf "2024-05-01") (midnightOf "2024-06-01")
            (midnightOf "2024-07-01") (midnightOf "2024-08-01")
            (midnightOf "2024-09-01") (midnightOf "2024-10-01")
            _ _ _ _ _ _ _ _ _ _ _ _ (rev monthly2024) _);
    try reflexivity.
  - repeat split; reflexivity.
  - split; [reflexivity | decide_by_computation].
  - apply Permutation_sym, Permutation_rev.
Defined.

(** C5 fails as stated: record[2], the March coupon, is not in the
    window, which starts at record[3]. *)
Lemma march_not_in_window :
  convertMOEXData (midnightOf "2024-05-15") monthly2024
  = [ displayEntry (coupon "2024-04-01" "7.5" "37.4") false true;
      displayEntry (coupon "2024-05-01" "7.5" "37.4") false true;
      displayEntry (coupon "2024-06-01" "7.5" "37.4") true false;
      displayEntry (coupon "2024-07-01" "7.5" "37.4") false false;
      displayEntry (coupon "2024-08-01" "7.5" "37.4") false false ] /\
  nth_error monthly2024 2 = Some (coupon "2024-03-01" "7.5" "37.4") /\
  ~ In (displayEntry (coupon "2024-03-01" "7.5" "37.4") false true)
      (convertMOEXData (midnightOf "2024-05-15") monthly2024).
Proof.
  split; [reflexivity|]. split; [reflexivity|].
  vm_compute. intuition discriminate.
Qed.

(** ** Dates that do not parse *)

Lemma unparseable_date_is_incomparable_witness :
  isUpcoming (midnightOf "2024-07-01") undated = false.
Proof.
  refine (proj1 (unparseable_date_is_incomparable
                   (midnightOf "2024-07-01") undated _)).
  reflexivity.
Defined.

(** C6 fails: the row without a date stays in front of a valid date
    where the policy puts it behind, and it is not found as upcoming
    where the policy would make it the anchor. *)
Lemma undated_not_greater :
  sortedCoupons undatedThenPast = [ undated; coupon "2024-06-01" "8" "39.89" ] /\
  policy_sortedCoupons undatedThenPast = [ coupon "2024-06-01" "8" "39.89"; undated ] /\
  isUpcoming (midnightOf "2024-07-01") undated = false /\
  policy_isUpcoming (midnightOf "2024-07-01") undated = true /\
  firstUpcomingIndex (midnightOf "2024-07-01") undatedThenPast = 2 /\
  policy_firstUpcomingIndex (midnightOf "2024-07-01") undatedThenPast = 1 /\
  convertMOEXData (midnightOf "2024-07-01") undatedThenPast
  = [ displayEntry undated false false;
      displayEntry (coupon "2024-06-01" "8" "39.89") false true ].
Proof. repeat split; reflexivity. Qed.

(** ** Classification *)

Lemma current_rule_takes_precedence_witness :
  getCouponStatus "2024-07-01" (midnightOf "2024-07-01") (Some "2024-07-01")
  = "current" /\
  getCouponStatus "2024-07-01" (midnightOf "2024-07-01") None = "upcoming".
Proof.
  split.
  - exact (proj1 (current_rule_takes_precedence
                    "2024-07-01" (midnightOf "2024-07-01"))).
  - refine (proj1 (proj2 (current_rule_takes_precedence
                            "2024-07-01" (midnightOf "2024-07-01")))
              None (midnightOf "2024-07-01") _ _).
    + discriminate.
    + reflexivity.
Defined.

(** ** Chronological order *)

Lemma output_chronological_witness :
  chronological (selectedCoupons (midnightOf "2024-05-15") (rev monthly2024)).
Proof.
  refine (proj2 (output_chronological
                   (midnightOf "2024-05-15") (rev monthly2024) _)).
  repeat constructor; discriminate.
Defined.

(** C8 fails when a date does not parse: the comparator ties the
    undated row with both neighbours, the array stays as it came, and
    March comes out before January. *)
Lemma undated_breaks_order :
  map paymentDate (convertMOEXData (midnightOf "2023-12-01") undatedBetween)
  = [ "01.03.2024"; "NaN.NaN.NaN"; "01.01.2024" ] /\
  selectedCoupons (midnightOf "2023-12-01") undatedBetween = undatedBetween /\
  ~ chronological (selectedCoupons (midnightOf "2023-12-01") undatedBetween).
Proof.
  split; [reflexivity|]. split; [reflexivity|].
  intros Hchrono.
  specialize (Hchrono 0%nat 2%nat (coupon "2024-03-01" "8" "39.89")
                (coupon "2024-01-01" "8" "39.89") (Nat.lt_0_succ 1)
                eq_refl eq_refl).
  vm_compute in Hchrono. discriminate.
Qed.

(** ** The legacy script *)

Lemma legacy_agrees_witness :
  convertMOEXData (midnightOf "2024-05-15") monthly2024
  = legacy_convertMOEXData (midnightOf "2024-05-15") monthly2024.
Proof.
  refine (legacy_agrees (midnightOf "2024-05-15") monthly2024 (or_introl _) _).
  - decide_by_computation.
  - vm_compute. repeat constructor.
Defined.

(** C10 fails at the start of the series: with today on the first
    coupon the widget shows five entries and the legacy script three. *)
Lemma legacy_window_shorter :
  len (convertMOEXData (midnightOf "2024-01-01") monthly2024) = 5 /\
  len (legacy_convertMOEXData (midnightOf "2024-01-01") monthly2024) = 3 /\
  convertMOEXData (midnightOf "2024-01-01") monthly2024
  <> legacy_convertMOEXData (midnightOf "2024-01-01") monthly2024.
Proof.
  split; [reflexivity|]. split; [reflexivity|].
  intros Heq. apply (f_equal len) in Heq. vm_compute in Heq. discriminate.
Qed.

(** The two also part on a row without a rate: a dash against
    [null%]. *)
Lemma legacy_prints_null :
  map rate (convertMOEXData (midnightOf "2024-07-01")
              [ {| coupondate := "2024-12-01"; valueprc := JsNull;
                   value_rub := JsNumber "39.89" |} ]) = [ "-" ] /\
  map rate (legacy_convertMOEXData (midnightOf "2024-07-01")
              [ {| coupondate := "2024-12-01"; valueprc := JsNull;
                   value_rub := JsNumber "39.89" |} ]) = [ "null%" ].
Proof. split; reflexivity. Qed.
End OnUtcHost.

(** * Further properties of the selection *)

(** ** The printed date *)

Section PrintedDate.
Context {host : DateHost}.

Lemma padStart_two_digits (n : Z) :
  0 <= n < 100 ->
  padStart 2 "0" (numberToString (Some n)) = twoDigits n.
Proof.
  intros Hn.
  assert (Hall : forallb
                   (fun k => String.eqb (padStart 2 "0" (numberToString (Some k)))
                               (twoDigits k))
                   (map Z.of_nat (seq 0 100)) = true)
    by (vm_compute; reflexivity).
  rewrite forallb_forall in Hall. apply String.eqb_eq, Hall.
  rewrite <- (Z2Nat.id n) by lia. apply in_map, in_seq. lia.
Qed.

(** X1.  A date string that does not parse is printed as [NaN.NaN.NaN]. *)
Theorem formatDate_invalid (dateString : string) :
  getTime dateString = NaN ->
  formatDate dateString = "NaN.NaN.NaN".
Proof. intros Hnan. unfold formatDate. rewrite Hnan. reflexivity. Qed.

(** X2.  A date string that parses is printed as day, month and year separated
    by dots, day and month with exactly two digits, zero-padded, whenever
    the host's day of the month lies in 1..31 and its month in 0..11. *)
Theorem formatDate_valid (dateString : string) (t : Z) :
  getTime dateString = Some t ->
  1 <= getDate t <= 31 ->
  0 <= getMonth t <= 11 ->
  formatDate dateString
  = (twoDigits (getDate t) ++ "." ++ twoDigits (getMonth t + 1) ++ "."
     ++ numberToString (Some (getFullYear t)))%string.
Proof.
  intros Ht Hday Hmonth. unfold formatDate. rewrite Ht. cbn [option_map].
  rewrite !padStart_two_digits by lia. reflexivity.
Qed.
End PrintedDate.

(** ** Flags and dates *)

Section FlagsAndDates.
Context {host : DateHost}.
Implicit Types (currentDate : Z) (couponsData : list MoexCoupon).

Lemma past_not_current currentDate couponsData c :
  isPast currentDate c = true ->
  strictEqDate (coupondate c) (currentCouponDate currentDate couponsData) = false.
Proof.
  unfold isPast, couponTime. intros Hpast.
  destruct (currentCouponDate currentDate couponsData) as [d|] eqn:Hccd;
    [|reflexivity].
  apply currentCouponDate_valid in Hccd as (t & Ht & Hle). simpl.
  destruct (String.eqb_spec (coupondate c) d) as [Heq|]; [|reflexivity].
  rewrite Heq, Ht in Hpast. simpl in Hpast. apply Z.ltb_lt in Hpast. lia.
Qed.

Lemma map_disabled_isPast currentDate couponsData :
  map disabled (convertMOEXData currentDate couponsData)
  = map (isPast currentDate) (selectedCoupons currentDate couponsData).
Proof.
  rewrite convertMOEXData_map, map_map. apply map_ext. intros c.
  rewrite toCouponData_disabled. fold (couponTime c). fold (isPast currentDate c).
  destruct (isPast currentDate c) eqn:Hpast; [|apply andb_false_r].
  now rewrite (past_not_current _ couponsData _ Hpast).
Qed.

(** X3.  An entry is disabled exactly when its record's date parses and is
    strictly before today, whatever the other records are; and no entry
    is both current and disabled. *)
Theorem disabled_iff_past currentDate couponsData :
  map disabled (convertMOEXData currentDate couponsData)
  = map (isPast currentDate) (selectedCoupons currentDate couponsData) /\
  Forall (fun e => current e && disabled e = false)
    (convertMOEXData currentDate couponsData).
Proof.
  split; [apply map_disabled_isPast|].
  rewrite convertMOEXData_map. apply Forall_forall. intros e He.
  apply in_map_iff in He as (c & <- & _).
  rewrite toCouponData_current, toCouponData_disabled.
  destruct (strictEqDate _ _); reflexivity.
Qed.
End FlagsAndDates.

(** ** The sorted copy around [firstUpcomingIndex] *)

Section PartitionPoint.
Context {host : DateHost}.
Implicit Types (currentDate : Z) (couponsData : list MoexCoupon).

Lemma firstn_add {A : Type} (a b : nat) (l : list A) :
  firstn (a + b) l = (firstn a l ++ firstn b (skipn a l))%list.
Proof.
  revert l. induction a as [|a IH]; intros l; simpl; [reflexivity|].
  destruct l as [|x rest]; simpl.
  - now rewrite firstn_nil.
  - now rewrite IH.
Qed.

Lemma slice_split {A : Type} (l : list A) (s m e : Z) :
  0 <= s -> s <= m -> m <= e -> e <= len l ->
  slice l s e = (slice l s m ++ slice l m e)%list.
Proof.
  intros Hs Hsm Hme He.
  rewrite !slice_inbounds by lia.
  replace (Z.to_nat (e - s)) with (Z.to_nat (m - s) + Z.to_nat (e - m))%nat by lia.
  rewrite firstn_add, skipn_skipn.
  replace (Z.to_nat (m - s) + Z.to_nat s)%nat with (Z.to_nat m) by lia.
  reflexivity.
Qed.

Lemma map_constant {A B : Type} (f : A -> B) (v : B) (l : list A) :
  Forall (fun x => f x = v) l -> map f l = repeat v (List.length l).
Proof.
  induction 1 as [|x rest Hx _ IH]; simpl; [reflexivity|].
  now rewrite Hx, IH.
Qed.

Lemma Forall_slice {A : Type} (P : A -> Prop) (l : list A) (s e : Z) :
  Forall P (skipn (Z.to_nat s) l) -> 0 <= s -> s <= e -> e <= len l ->
  Forall P (slice l s e).
Proof.
  intros Hall Hs Hse He. rewrite slice_inbounds by assumption.
  rewrite Forall_forall in *. intros x Hx. apply Hall.
  now apply In_firstn in Hx.
Qed.

Lemma Forall_slice_prefix {A : Type} (P : A -> Prop) (l : list A) (s e : Z) :
  Forall P (firstn (Z.to_nat e) l) -> 0 <= s -> s <= e -> e <= len l ->
  Forall P (slice l s e).
Proof.
  intros Hall Hs Hse He. rewrite slice_inbounds by assumption.
  rewrite firstn_skipn_comm.
  replace (Z.to_nat s + Z.to_nat (e - s))%nat with (Z.to_nat e) by lia.
  rewrite Forall_forall in *. intros x Hx. apply Hall.
  now apply In_skipn in Hx.
Qed.

(** No record in front of [firstUpcomingIndex] is on or after today. *)
Lemma before_index_not_upcoming currentDate couponsData :
  Forall (fun y => isUpcoming currentDate y = false)
    (firstn (Z.to_nat (firstUpcomingIndex currentDate couponsData))
       (sortedCoupons couponsData)).
Proof.
  destruct (hasAnchor currentDate couponsData) eqn:Hanchor.
  - destruct (firstUpcomingIndex_anchor _ _ Hanchor) as (n & c & Hi & _ & _ & Hbefore & _).
    rewrite Hi, Nat2Z.id. exact Hbefore.
  - apply Forall_forall. intros y Hy. apply In_firstn in Hy.
    rewrite <- hasAnchor_sorted in Hanchor.
    destruct (isUpcoming currentDate y) eqn:Hup; [|reflexivity].
    rewrite <- Hanchor. symmetry. apply existsb_exists. now exists y.
Qed.

(** When every date parses, the anchor is no later than any record from
    [firstUpcomingIndex] on. *)
Lemma from_index_after_anchor currentDate couponsData :
  allParse couponsData ->
  forall a,
    at_index (sortedCoupons couponsData)
      (firstUpcomingIndex currentDate couponsData) = Some a ->
    Forall (dateLe a)
      (skipn (Z.to_nat (firstUpcomingIndex currentDate couponsData))
         (sortedCoupons couponsData)).
Proof.
  intros Hparse a Hat.
  pose proof (firstUpcomingIndex_range currentDate couponsData) as Hr.
  unfold at_index in Hat.
  destruct (Z.ltb_spec (firstUpcomingIndex currentDate couponsData) 0); [lia|].
  pose proof (sortedCoupons_sorted _ Hparse) as Hsorted.
  apply (StronglySorted_skipn dateLe
           (Z.to_nat (firstUpcomingIndex currentDate couponsData))) in Hsorted.
  rewrite <- hd_error_skipn in Hat.
  destruct (skipn _ (sortedCoupons couponsData)) as [|x rest] eqn:Hskip;
    [discriminate|].
  simpl in Hat. injection Hat as ->.
  apply StronglySorted_inv in Hsorted as (_ & Hall).
  constructor; [|exact Hall].
  assert (Hin : In a (sortedCoupons couponsData)).
  { apply (In_skipn (Z.to_nat (firstUpcomingIndex currentDate couponsData))).
    rewrite Hskip. now left. }
  pose proof (allParse_sorted _ Hparse) as Hparse'.
  unfold allParse in Hparse'. rewrite Forall_forall in Hparse'.
  specialize (Hparse' a Hin). unfold dateLe, NaN in *.
  destruct (getTime (coupondate a)); [|congruence].
  simpl. apply Z.leb_refl.
Qed.

Lemma from_index_upcoming currentDate couponsData :
  allParse couponsData ->
  Forall (fun y => isUpcoming currentDate y = true)
    (skipn (Z.to_nat (firstUpcomingIndex currentDate couponsData))
       (sortedCoupons couponsData)).
Proof.
  intros Hparse. destruct (hasAnchor currentDate couponsData) eqn:Hanchor.
  - destruct (anchor_in_window _ _ Hanchor) as (a & Hat & Hup & _ & _).
    pose proof (from_index_after_anchor _ _ Hparse a Hat) as Hall.
    eapply Forall_impl; [|exact Hall].
    intros y Hy. unfold isUpcoming, dateLe in *.
    destruct (getTime (coupondate a)) as [ta|]; [|discriminate].
    destruct (getTime (coupondate y)) as [ty|]; [|discriminate].
    simpl in *. rewrite Z.geb_leb in *. rewrite Z.leb_le in *. lia.
  - rewrite (firstUpcomingIndex_no_anchor _ _ Hanchor).
    rewrite <- sortedCoupons_len. unfold len. rewrite Nat2Z.id, skipn_all.
    constructor.
Qed.

(** X4.  With every date valid, the entries come as a block of disabled ones,
    at most two, followed by entries that are not disabled: the records
    before [firstUpcomingIndex], then those from it on. *)
Theorem past_entries_first currentDate couponsData :
  allParse couponsData ->
  map disabled (convertMOEXData currentDate couponsData)
  = (repeat true (Z.to_nat (firstUpcomingIndex currentDate couponsData
                            - startIndex currentDate couponsData))
     ++ repeat false (Z.to_nat (endIndex currentDate couponsData
                                - firstUpcomingIndex currentDate couponsData)))%list /\
  firstUpcomingIndex currentDate couponsData - startIndex currentDate couponsData
  = Z.min 2 (firstUpcomingIndex currentDate couponsData).
Proof.
  intros Hparse.
  pose proof (firstUpcomingIndex_range currentDate couponsData) as Hr.
  destruct (window_bounds currentDate couponsData) as (H0 & H1 & H2).
  assert (Hmid : startIndex currentDate couponsData
                 <= firstUpcomingIndex currentDate couponsData
                 <= endIndex currentDate couponsData).
  { unfold endIndex, startIndex in *. rewrite sortedCoupons_len in *.
    destruct (Z.eqb_spec (Z.max 0 (firstUpcomingIndex currentDate couponsData - 2)) 0);
      lia. }
  split; [|unfold startIndex; lia].
  rewrite map_disabled_isPast.
  unfold selectedCoupons.
  rewrite (slice_split _ _ (firstUpcomingIndex currentDate couponsData)) by lia.
  rewrite map_app. f_equal.
  - rewrite (map_constant _ true).
    + f_equal. pose proof (slice_length (sortedCoupons couponsData)
                             (startIndex currentDate couponsData)
                             (firstUpcomingIndex currentDate couponsData)) as Hl.
      unfold len in Hl at 2. lia.
    + apply Forall_slice_prefix; try lia.
      pose proof (before_index_not_upcoming currentDate couponsData) as Hbefore.
      pose proof (allParse_sorted _ Hparse) as Hparse'.
      unfold allParse in Hparse'.
      rewrite Forall_forall in *. intros y Hy.
      specialize (Hbefore y Hy). apply In_firstn in Hy.
      specialize (Hparse' y Hy). unfold isPast, couponTime, isUpcoming, NaN in *.
      destruct (getTime (coupondate y)) as [ty|]; [|congruence].
      simpl in *. rewrite Z.geb_leb in Hbefore.
      apply Z.leb_gt in Hbefore. now apply Z.ltb_lt.
  - rewrite (map_constant _ false).
    + f_equal. pose proof (slice_length (sortedCoupons couponsData)
                             (firstUpcomingIndex currentDate couponsData)
                             (endIndex currentDate couponsData)) as Hl.
      unfold len in Hl at 2. lia.
    + apply Forall_slice; try lia.
      eapply Forall_impl; [|apply (from_index_upcoming _ _ Hparse)].
      intros y Hy. unfold isPast, couponTime, isUpcoming in *.
      destruct (getTime (coupondate y)) as [ty|]; [|reflexivity].
      simpl in *. rewrite Z.geb_leb in Hy. apply Z.leb_le in Hy.
      apply Z.ltb_ge. exact Hy.
Qed.

Lemma anchor_is_earliest currentDate couponsData (d : string) :
  allParse couponsData ->
  currentCouponDate currentDate couponsData = Some d ->
  (exists a, In a couponsData /\ coupondate a = d /\
             isUpcoming currentDate a = true) /\
  forall c, In c couponsData -> isUpcoming currentDate c = true ->
            num_le (getTime d) (getTime (coupondate c)) = true.
Proof.
  intros Hparse Hccd.
  destruct (hasAnchor currentDate couponsData) eqn:Hanchor;
    [|rewrite (no_anchor_null _ _ Hanchor) in Hccd; discriminate].
  destruct (anchor_in_window _ _ Hanchor) as (a & Hat & Hup & Ha & Hnth).
  rewrite Ha in Hccd. injection Hccd as <-.
  split.
  - exists a. split; [|split; [reflexivity | exact Hup]].
    apply (selectedCoupons_incl currentDate). eapply nth_error_In. exact Hnth.
  - intros c Hin Hc.
    apply (Permutation_in _ (Permutation_sym (sortedCoupons_perm couponsData))) in Hin.
    rewrite <- (firstn_skipn
                  (Z.to_nat (firstUpcomingIndex currentDate couponsData))
                  (sortedCoupons couponsData)) in Hin.
    apply in_app_or in Hin as [Hin|Hin].
    + pose proof (before_index_not_upcoming currentDate couponsData) as Hbefore.
      rewrite Forall_forall in Hbefore. rewrite (Hbefore c Hin) in Hc. discriminate.
    + pose proof (from_index_after_anchor _ _ Hparse a Hat) as Hall.
      rewrite Forall_forall in Hall. exact (Hall c Hin).
Qed.

(** X5.  The current coupon is the earliest upcoming one: when every date
    parses, [currentCouponDate] is the date of a record on or after today
    and no record on or after today is dated earlier. *)
Theorem current_is_earliest_upcoming currentDate couponsData (d : string) :
  allParse couponsData ->
  currentCouponDate currentDate couponsData = Some d ->
  (exists a, In a couponsData /\ coupondate a = d /\
             isUpcoming currentDate a = true) /\
  forall c, In c couponsData -> isUpcoming currentDate c = true ->
            num_le (getTime d) (getTime (coupondate c)) = true.
Proof. apply anchor_is_earliest. Qed.
End PartitionPoint.

(** ** Order of the input, and what the window is made of *)

Section InputOrder.
Context {host : DateHost}.
Implicit Types (currentDate : Z) (couponsData : list MoexCoupon).

Lemma NoDup_map_inj {A B : Type} (f : A -> B) (l : list A) (x y : A) :
  NoDup (map f l) -> In x l -> In y l -> f x = f y -> x = y.
Proof.
  induction l as [|z rest IH]; simpl; intros Hnd Hx Hy Hxy; [contradiction|].
  inversion Hnd as [|? ? Hnotin Hrest]; subst.
  destruct Hx as [->|Hx], Hy as [->|Hy]; auto.
  - exfalso. apply Hnotin. rewrite Hxy. now apply in_map.
  - exfalso. apply Hnotin. rewrite <- Hxy. now apply in_map.
Qed.

Lemma sorted_distinct_strict (l : list MoexCoupon) :
  StronglySorted dateLe l -> distinctTimes l -> StronglySorted dateLt l.
Proof.
  unfold distinctTimes.
  induction 1 as [|a rest Hs IH Hall]; intros Hnd; [constructor|].
  simpl in Hnd. inversion Hnd as [|? ? Hnotin Hrest]; subst.
  constructor; [now apply IH|].
  rewrite Forall_forall in *. intros y Hy.
  specialize (Hall y Hy).
  assert (Hneq : couponTime a <> couponTime y)
    by (intros Heq; apply Hnotin; rewrite Heq; now apply in_map).
  unfold dateLe, dateLt, couponTime in *.
  destruct (getTime (coupondate a)) as [ta|]; [|discriminate].
  destruct (getTime (coupondate y)) as [ty|]; [|discriminate].
  simpl in *. apply Z.leb_le in Hall. apply Z.ltb_lt.
  assert (ta <> ty) by congruence. lia.
Qed.

Lemma sortedCoupons_order_independent (l1 l2 : list MoexCoupon) :
  Permutation l1 l2 -> allParse l1 -> distinctTimes l1 ->
  sortedCoupons l1 = sortedCoupons l2.
Proof.
  intros Hperm Hparse Hdistinct.
  assert (Hparse2 : allParse l2)
    by (eapply Permutation_Forall; [exact Hperm | exact Hparse]).
  apply sorted_perm_unique.
  - now apply sortedCoupons_sorted.
  - apply sorted_distinct_strict; [now apply sortedCoupons_sorted|].
    unfold distinctTimes in *.
    eapply Permutation_NoDup; [|exact Hdistinct].
    apply Permutation_map.
    rewrite sortedCoupons_perm. exact Hperm.
  - rewrite !sortedCoupons_perm. exact Hperm.
Qed.

(** X6.  The result does not depend on the order of the rows of the reply,
    when every date parses and the dates are pairwise distinct points in
    time. *)
Theorem convertMOEXData_order_independent currentDate (l1 l2 : list MoexCoupon) :
  Permutation l1 l2 -> allParse l1 -> distinctTimes l1 ->
  convertMOEXData currentDate l1 = convertMOEXData currentDate l2.
Proof.
  intros Hperm Hparse Hdistinct.
  pose proof (sortedCoupons_order_independent _ _ Hperm Hparse Hdistinct) as Hsorted.
  rewrite !convertMOEXData_map.
  unfold selectedCoupons, currentCouponDate, endIndex, startIndex, firstUpcomingIndex.
  now rewrite Hsorted.
Qed.

(** X7.  The window is a run of consecutive records of the sorted copy, which
    holds the rows of the input, each as often as the input does: the
    entries are made from input rows, [startIndex] rows of the sorted copy
    come before the window and [length - endIndex] after it. *)
Theorem window_is_run_of_sorted currentDate couponsData :
  Permutation (sortedCoupons couponsData) couponsData /\
  exists before after,
    sortedCoupons couponsData
    = (before ++ selectedCoupons currentDate couponsData ++ after)%list /\
    len before = startIndex currentDate couponsData /\
    len after = len couponsData - endIndex currentDate couponsData.
Proof.
  split; [apply sortedCoupons_perm|].
  destruct (window_bounds currentDate couponsData) as (H0 & H1 & H2).
  exists (firstn (Z.to_nat (startIndex currentDate couponsData))
            (sortedCoupons couponsData)),
    (skipn (Z.to_nat (endIndex currentDate couponsData))
       (sortedCoupons couponsData)).
  pose proof (sortedCoupons_len couponsData) as Hlen.
  split; [|split].
  - unfold selectedCoupons. rewrite slice_inbounds by assumption.
    rewrite <- (firstn_skipn (Z.to_nat (startIndex currentDate couponsData))
                  (sortedCoupons couponsData)) at 1.
    f_equal.
    rewrite <- (firstn_skipn
                  (Z.to_nat (endIndex currentDate couponsData
                             - startIndex currentDate couponsData))
                  (skipn (Z.to_nat (startIndex currentDate couponsData))
                     (sortedCoupons couponsData))) at 1.
    f_equal. rewrite skipn_skipn. f_equal. lia.
  - unfold len in *. rewrite length_firstn. lia.
  - unfold len in *. rewrite length_skipn. lia.
Qed.

(** X8.  Inside [convertMOEXData] the status [upcoming] does not occur, when
    every date parses and the dates are pairwise distinct points in time:
    a record dated today is the anchor and is [current]. *)
Theorem upcoming_status_unreachable currentDate couponsData :
  allParse couponsData -> distinctTimes couponsData ->
  forall c, In c (selectedCoupons currentDate couponsData) ->
    getCouponStatus (coupondate c) currentDate
      (currentCouponDate currentDate couponsData) <> "upcoming".
Proof.
  intros Hparse Hdistinct c Hin Hstatus.
  apply (selectedCoupons_incl currentDate) in Hin.
  unfold getCouponStatus in Hstatus.
  destruct (strictEqDate (coupondate c) (currentCouponDate currentDate couponsData))
    eqn:Hstrict; [discriminate|].
  destruct (num_lt (getTime (coupondate c)) (Some currentDate)); [discriminate|].
  destruct (num_eq (getTime (coupondate c)) (Some currentDate)) eqn:Heq;
    [|discriminate].
  destruct (getTime (coupondate c)) as [tc|] eqn:Htc; [|discriminate].
  simpl in Heq. apply Z.eqb_eq in Heq. subst tc.
  assert (Hup : isUpcoming currentDate c = true).
  { unfold isUpcoming. rewrite Htc. simpl. rewrite Z.geb_leb. apply Z.leb_refl. }
  assert (Hanchor : hasAnchor currentDate couponsData = true)
    by (apply existsb_exists; now exists c).
  destruct (anchor_in_window _ _ Hanchor) as (a & _ & Haup & Hccd & _).
  destruct (anchor_is_earliest _ _ _ Hparse Hccd)
    as ((a' & Hina & Hdate & _) & Hearliest).
  specialize (Hearliest c Hin Hup). rewrite Htc in Hearliest.
  unfold isUpcoming in Haup.
  destruct (getTime (coupondate a)) as [ta|] eqn:Hta; [|discriminate].
  simpl in *. rewrite Z.geb_leb in Haup.
  apply Z.leb_le in Haup, Hearliest.
  assert (Hsame : a' = c).
  { apply (NoDup_map_inj couponTime couponsData); auto.
    unfold couponTime. rewrite Hdate, Hta, Htc. f_equal. lia. }
  subst a'. rewrite Hccd, <- Hdate in Hstrict. simpl in Hstrict.
  now rewrite String.eqb_refl in Hstrict.
Qed.

End InputOrder.

(** ** The window of the legacy script *)

Section LegacyWindow.
Context {host : DateHost}.
Implicit Types (currentDate : Z) (couponsData : list MoexCoupon).

Lemma legacy_window_bounds currentDate couponsData :
  0 <= startIndex currentDate couponsData /\
  startIndex currentDate couponsData <= legacy_endIndex currentDate couponsData /\
  legacy_endIndex currentDate couponsData <= endIndex currentDate couponsData /\
  endIndex currentDate couponsData <= len (sortedCoupons couponsData).
Proof.
  pose proof (firstUpcomingIndex_range currentDate couponsData) as Hr.
  unfold legacy_endIndex, endIndex, startIndex. rewrite sortedCoupons_len.
  destruct (Z.eqb_spec (Z.max 0 (firstUpcomingIndex currentDate couponsData - 2)) 0);
    lia.
Qed.

Lemma legacy_convertMOEXData_len currentDate couponsData :
  len (legacy_convertMOEXData currentDate couponsData)
  = legacy_endIndex currentDate couponsData - startIndex currentDate couponsData.
Proof.
  destruct (legacy_window_bounds currentDate couponsData) as (H0 & H1 & H2 & H3).
  rewrite legacy_convertMOEXData_map, len_map.
  unfold legacy_selectedCoupons. apply slice_length; lia.
Qed.

(** X12.  The legacy script never shows more than five entries, and shows
    exactly five, two past, the current and two future ones, when an
    anchor exists with at least two records before it and at least two
    after it. *)
Theorem legacy_window_at_most_five currentDate couponsData :
  len (legacy_convertMOEXData currentDate couponsData) <= 5 /\
  (hasAnchor currentDate couponsData = true ->
   2 <= firstUpcomingIndex currentDate couponsData ->
   2 <= len couponsData - (firstUpcomingIndex currentDate couponsData + 1) ->
   len (legacy_convertMOEXData currentDate couponsData) = 5 /\
   startIndex currentDate couponsData
   = firstUpcomingIndex currentDate couponsData - 2 /\
   legacy_endIndex currentDate couponsData
   = firstUpcomingIndex currentDate couponsData + 3).
Proof.
  pose proof (firstUpcomingIndex_range currentDate couponsData) as Hr.
  rewrite legacy_convertMOEXData_len.
  unfold legacy_endIndex, startIndex. rewrite sortedCoupons_len.
  split; [lia|]. intros _ Hbefore Hafter. lia.
Qed.

(** X13.  The window of the legacy script is the front of the window of the
    TypeScript widget, which shows at most two entries more; where both
    printed values of the rows are truthy, so are the entries. *)
Theorem legacy_window_is_prefix currentDate couponsData :
  legacy_selectedCoupons currentDate couponsData
  = firstn (Z.to_nat (len (legacy_convertMOEXData currentDate couponsData)))
      (selectedCoupons currentDate couponsData) /\
  0 <= len (convertMOEXData currentDate couponsData)
       - len (legacy_convertMOEXData currentDate couponsData) <= 2 /\
  (Forall valuesPresent (selectedCoupons currentDate couponsData) ->
   legacy_convertMOEXData currentDate couponsData
   = firstn (Z.to_nat (len (legacy_convertMOEXData currentDate couponsData)))
       (convertMOEXData currentDate couponsData)).
Proof.
  destruct (legacy_window_bounds currentDate couponsData) as (H0 & H1 & H2 & H3).
  assert (Hprefix :
            legacy_selectedCoupons currentDate couponsData
            = firstn (Z.to_nat (len (legacy_convertMOEXData currentDate couponsData)))
                (selectedCoupons currentDate couponsData)).
  { rewrite legacy_convertMOEXData_len.
    unfold selectedCoupons, legacy_selectedCoupons.
    rewrite (slice_split (sortedCoupons couponsData) _
               (legacy_endIndex currentDate couponsData)
               (endIndex currentDate couponsData)) by lia.
    pose proof (slice_length (sortedCoupons couponsData)
                  (startIndex currentDate couponsData)
                  (legacy_endIndex currentDate couponsData)) as Hl.
    unfold len in Hl at 2.
    rewrite firstn_app.
    replace (Z.to_nat (legacy_endIndex currentDate couponsData
                       - startIndex currentDate couponsData)
             - List.length (slice (sortedCoupons couponsData)
                              (startIndex currentDate couponsData)
                              (legacy_endIndex currentDate couponsData)))%nat
      with 0%nat by lia.
    rewrite firstn_0, app_nil_r. symmetry. apply firstn_all2. lia. }
  split; [exact Hprefix|]. split.
  - pose proof (firstUpcomingIndex_range currentDate couponsData) as Hr.
    rewrite convertMOEXData_len, legacy_convertMOEXData_len.
    unfold legacy_endIndex, endIndex, startIndex in *.
    rewrite sortedCoupons_len in *.
    destruct (Z.eqb_spec (Z.max 0 (firstUpcomingIndex currentDate couponsData - 2)) 0);
      lia.
  - intros Hvalues.
    rewrite legacy_convertMOEXData_map at 1. rewrite Hprefix.
    rewrite convertMOEXData_map, firstn_map.
    apply map_ext_in. intros c Hin. apply In_firstn in Hin.
    apply legacy_toCouponData_present.
    rewrite Forall_forall in Hvalues. now apply Hvalues.
Qed.
End LegacyWindow.

(** * The element builder *)

Section BuilderFacts.
Context {dom : DomHost}.

Lemma withChildren_same (element : Element) :
  withChildren (childNodes element) element = element.
Proof. now destruct element. Qed.

Lemma appendChildren_nodes (nodes : list Node) (element : Element) :
  fold_left (fun e node => appendChild node e) nodes element
  = withChildren (childNodes element ++ nodes) element.
Proof.
  revert element. induction nodes as [|node rest IH]; intros element; simpl.
  - rewrite app_nil_r. symmetry. apply withChildren_same.
  - rewrite IH. unfold withChildren, appendChild. simpl.
    now rewrite <- app_assoc.
Qed.

(** [addChild] appends, in order, the nodes of its arguments and touches
    nothing else of the element. *)
Lemma addChild_nodes (children : list ChildElement) (element : Element) :
  addChild children element
  = withChildren (childNodes element ++ flat_map nodesOfChild children) element.
Proof.
  unfold addChild. revert element.
  induction children as [|child rest IH]; intros element; simpl.
  - rewrite app_nil_r. symmetry. apply withChildren_same.
  - rewrite IH, appendChildren_nodes. unfold withChildren. simpl.
    now rewrite <- app_assoc.
Qed.



Lemma tokensError_one (token : string) : tokensError [token] = tokenError token.
Proof. simpl. now destruct (tokenError token). Qed.

Lemma contains_appendToken (token other : string) (tokens : list string) :
  contains other (appendToken tokens token)
  = contains other tokens || String.eqb other token.
Proof.
  unfold appendToken, contains.
  destruct (existsb (String.eqb token) tokens) eqn:Hin.
  - destruct (String.eqb_spec other token) as [->|]; [|now rewrite orb_false_r].
    now rewrite Hin.
  - rewrite existsb_app. simpl. now rewrite orb_false_r.
Qed.

Lemma contains_removeToken (token other : string) (tokens : list string) :
  contains other (removeToken tokens token)
  = contains other tokens && negb (String.eqb other token).
Proof.
  unfold removeToken, contains. induction tokens as [|t rest IH]; simpl.
  - reflexivity.
  - destruct (String.eqb_spec token t) as [->|Hneq]; simpl.
    + rewrite IH. destruct (String.eqb_spec other t); simpl; [|reflexivity].
      now rewrite andb_false_r.
    + rewrite IH. destruct (String.eqb_spec other t) as [->|]; simpl;
        [|reflexivity].
      destruct (String.eqb_spec t token); [congruence|]. reflexivity.
Qed.

(** X15.  [addClass] with one class name: an empty name or one with white
    space makes it throw; any other name is in the class list afterwards,
    once, the other classes are as before, and adding it again changes
    nothing. *)
Theorem addClass_once (className : string) (element : Element) :
  match tokenError className with
  | Some error => addClass (OneClass className) element = Raised error
  | None =>
      exists added,
        addClass (OneClass className) element = Done added /\
        hasClass className added = true /\
        (forall other, hasClass other added
                       = hasClass other element || String.eqb other className) /\
        (hasClass className element = true -> added = element) /\
        addClass (OneClass className) added = Done added /\
        childNodes added = childNodes element /\
        attributes added = attributes element
  end.
Proof.
  unfold addClass, classList_add. rewrite tokensError_one.
  destruct (tokenError className) as [error|] eqn:Htoken; [reflexivity|].
  eexists. split; [reflexivity|]. cbn [fold_left].
  unfold hasClass. cbn [classList childNodes attributes tagName].
  assert (Hin : contains className (appendToken (classList element) className) = true)
    by (rewrite contains_appendToken, String.eqb_refl; apply orb_true_r).
  split; [exact Hin|]. split; [intros other; apply contains_appendToken|].
  split; [|split; [|split; reflexivity]].
  - intros Hhas. unfold appendToken. rewrite Hhas. now destruct element.
  - cbn [fold_left classList].
    f_equal. f_equal. unfold appendToken at 1. now rewrite Hin.
Qed.

(** X16.  [toggleClass] twice gives back the class list as a set: every class
    is in it exactly when it was before. *)
Theorem toggleClass_twice (className : string) (element : Element) :
  tokenError className = None ->
  exists once twice,
    toggleClass className element = Done once /\
    toggleClass className once = Done twice /\
    hasClass className once = negb (hasClass className element) /\
    forall other, hasClass other twice = hasClass other element.
Proof.
  intros Htoken. unfold toggleClass, classList_toggle, hasClass.
  unfold classList_add, classList_remove.
  destruct (contains className (classList element)) eqn:Hin;
    rewrite (tokensError_one className), Htoken.
  - eexists. eexists. split; [reflexivity|].
    cbn [classList fold_left].
    assert (Hout : contains className (removeToken (classList element) className)
                   = false)
      by (rewrite contains_removeToken, String.eqb_refl; apply andb_false_r).
    rewrite Hout. split; [reflexivity|]. split; [reflexivity|].
    intros other. cbn [classList fold_left].
    rewrite contains_appendToken, contains_removeToken.
    destruct (String.eqb_spec other className) as [->|]; simpl.
    + now rewrite Hin.
    + now rewrite andb_true_r, orb_false_r.
  - eexists. eexists. split; [reflexivity|].
    cbn [classList fold_left].
    assert (Hnow : contains className (appendToken (classList element) className)
                   = true)
      by (rewrite contains_appendToken, String.eqb_refl; apply orb_true_r).
    rewrite Hnow. split; [reflexivity|]. split; [reflexivity|].
    intros other. cbn [classList fold_left].
    rewrite contains_removeToken, contains_appendToken.
    destruct (String.eqb_spec other className) as [->|]; simpl.
    + now rewrite Hin, andb_false_r.
    + now rewrite andb_true_r, orb_false_r.
Qed.
End BuilderFacts.

(** * The view of the widget *)

Section ViewFacts.
Context {host : DateHost} {dom : DomHost}.

(** The builder calls of [listItem] never throw and give the item
    described by [itemElement]. *)
Lemma elems_listItem_done (item : CouponData) :
  elems_listItem item = Done (itemElement item).
Proof.
  destruct item as [p r a cur dis].
  destruct cur, dis, p, r, a; reflexivity.
Qed.

Lemma addListItems_done (items : list CouponData) (baseContainer : Element) :
  addListItems items baseContainer
  = Done (withChildren (childNodes baseContainer ++ map itemNode items) baseContainer).
Proof.
  revert baseContainer. induction items as [|item rest IH]; intros baseContainer.
  - simpl. rewrite app_nil_r. now rewrite withChildren_same.
  - cbn [addListItems]. rewrite elems_listItem_done. cbn [bind].
    rewrite IH, addChild_nodes. unfold withChildren.
    cbn [tagName attributes classList childNodes flat_map nodesOfChild map].
    rewrite app_nil_r, <- app_assoc. reflexivity.
Qed.

Lemma renderedList_done (w : CouponsWidget) :
  exists element,
    renderedList w = Done element /\
    asNode element = listNode (Kept.emptyMessage (options w)) (data w).
Proof.
  assert (Hbase : elems_baseContainer
                  = Done {| tagName := "div"; attributes := [];
                            classList := ["coupons-list"]; childNodes := [] |})
    by reflexivity.
  unfold renderedList. rewrite Hbase. cbn [bind].
  destruct (data w) as [|item rest] eqn:Hdata.
  - eexists. split; [reflexivity|].
    destruct (Kept.emptyMessage (options w)); reflexivity.
  - cbn [List.length Nat.eqb]. rewrite addListItems_done.
    eexists. split; reflexivity.
Qed.

Lemma fill_done (element emptied : Element) (w : CouponsWidget) :
  fill (Done element) emptied w
  = (Normal, withContainer (Some (appendChild (asNode element) emptied)) w).
Proof. reflexivity. Qed.

Lemma showing_container (node : Node) (w : CouponsWidget) (c : Element) :
  container w = Some c ->
  withContainer (Some (appendChild node (enhanced_empty c))) w = showing node w.
Proof. intros Hc. unfold withContainer, showing. now rewrite Hc. Qed.

Lemma showing_none (node : Node) (w : CouponsWidget) :
  container w = None -> showing node w = w.
Proof. intros Hc. destruct w as [o c d]. simpl in *. now subst c. Qed.

Lemma render_eq (w : CouponsWidget) :
  render w = (Normal, showing (listNode (Kept.emptyMessage (options w)) (data w)) w).
Proof.
  unfold render. destruct (container w) as [c|] eqn:Hc.
  - destruct (renderedList_done w) as (element & Hdone & Hnode).
    rewrite Hdone, fill_done, Hnode. now rewrite (showing_container _ _ _ Hc).
  - now rewrite showing_none.
Qed.

Lemma show_eq (w : CouponsWidget) (message : string) :
  showLoading w
  = (Normal, showing (messageNode "loading" (Kept.loadingMessage (options w))) w) /\
  showError message w
  = (Normal, showing (messageNode "error" ("Ошибка: " ++ message)) w).
Proof.
  unfold showLoading, showError. destruct (container w) as [c|] eqn:Hc.
  - rewrite <- !(showing_container _ _ _ Hc). split.
    + unfold elems_loadingElem.
      destruct (Kept.loadingMessage (options w)); reflexivity.
    + reflexivity.
  - now rewrite !showing_none.
Qed.
End ViewFacts.

(** ** The window is never empty *)

Section WindowLowerBound.
Context {host : DateHost}.
Implicit Types (currentDate : Z) (couponsData : list MoexCoupon).

Lemma convertMOEXData_len_lower currentDate couponsData :
  Z.min (len couponsData) 2 <= len (convertMOEXData currentDate couponsData).
Proof.
  pose proof (convertMOEXData_len_cases currentDate couponsData) as Hlen.
  pose proof (firstUpcomingIndex_range currentDate couponsData) as Hr.
  cbv zeta in Hlen. rewrite Hlen.
  destruct (Z.leb_spec (firstUpcomingIndex currentDate couponsData) 2); lia.
Qed.

Lemma convertMOEXData_nil currentDate couponsData :
  convertMOEXData currentDate couponsData = [] <-> couponsData = [].
Proof.
  split.
  - intros Hnil. pose proof (convertMOEXData_len_lower currentDate couponsData) as Hlow.
    rewrite Hnil in Hlow. destruct couponsData; [reflexivity|].
    unfold len in Hlow. simpl in Hlow. lia.
  - intros ->. reflexivity.
Qed.

(** X11.  The window holds at least two entries, or the whole input when that
    is shorter, and never more entries than the input has rows; it is
    empty only for an empty input. *)
Theorem window_at_least_two currentDate couponsData :
  Z.min (len couponsData) 2 <= len (convertMOEXData currentDate couponsData)
  <= len couponsData /\
  (convertMOEXData currentDate couponsData = [] <-> couponsData = []).
Proof.
  split; [|apply convertMOEXData_nil].
  split; [apply convertMOEXData_len_lower|].
  destruct (window_bounds currentDate couponsData) as (H0 & H1 & H2).
  rewrite convertMOEXData_len. rewrite sortedCoupons_len in H2. lia.
Qed.

Lemma countCurrent_distinct currentDate couponsData :
  hasAnchor currentDate couponsData = true ->
  NoDup (map coupondate couponsData) ->
  countCurrent (convertMOEXData currentDate couponsData) = 1%nat.
Proof.
  intros Hanchor Hnd.
  destruct (anchor_in_window _ _ Hanchor) as (c & _ & _ & Hccd & Hnth).
  rewrite convertMOEXData_map, countCurrent_map, Hccd.
  apply Nat.le_antisymm.
  - apply filter_date_NoDup. now apply selectedCoupons_NoDup.
  - apply filter_date_present with (c := c); [|reflexivity].
    eapply nth_error_In. exact Hnth.
Qed.

Lemma countCurrent_no_anchor currentDate couponsData :
  hasAnchor currentDate couponsData = false ->
  countCurrent (convertMOEXData currentDate couponsData) = 0%nat.
Proof.
  intros Hnone. rewrite convertMOEXData_map, (no_anchor_null _ _ Hnone).
  apply countCurrent_null.
Qed.
End WindowLowerBound.

(** * The widget *)

Section WidgetFacts.
Context {host : DateHost} {dom : DomHost}.

Lemma showing_showing (n m : Node) (w : CouponsWidget) :
  showing n (showing m w) = showing n w.
Proof. destruct w as [o [c|] d]; reflexivity. Qed.

Lemma showing_withData (n m : Node) (d : list CouponData) (w : CouponsWidget) :
  showing n (withData d (showing m w)) = showing n (withData d w).
Proof. destruct w as [o [c|] d']; reflexivity. Qed.

Lemma showing_destroy (n : Node) (w : CouponsWidget) :
  showing n (destroy w) = showing n w.
Proof. destruct w as [o [c|] d]; reflexivity. Qed.

Lemma string_app_nil_r (s : string) : (s ++ "")%string = s.
Proof. induction s as [|c s IH]; simpl; [reflexivity | now rewrite IH]. Qed.

Lemma string_app_assoc (a b c : string) :
  ((a ++ b) ++ c)%string = (a ++ (b ++ c))%string.
Proof. induction a as [|x a IH]; simpl; [reflexivity | now rewrite IH]. Qed.

Lemma textContent_span (text className : string) :
  textContent (spanNode text className) = text.
Proof. destruct text; [reflexivity|]. simpl. now rewrite string_app_nil_r. Qed.

Lemma textContent_value (kind title value : string) :
  textContent (valueNode kind title value) = (title ++ value)%string.
Proof.
  unfold valueNode. cbn [textContent].
  now rewrite !textContent_span, string_app_nil_r.
Qed.

Lemma itemClasses_flags (item : CouponData) :
  contains "list-item" (itemClasses item) = true /\
  contains "current" (itemClasses item) = current item /\
  contains "disabled" (itemClasses item) = disabled item /\
  contains "empty" (itemClasses item) = false.
Proof. unfold itemClasses. destruct (current item), (disabled item); repeat split. Qed.

Lemma count_items (className : string) (flag : CouponData -> bool)
    (entries : list CouponData) :
  (forall item, contains className (itemClasses item) = flag item) ->
  List.length (filter (fun child => contains className (classesOf child))
                 (map itemNode entries))
  = List.length (filter flag entries).
Proof.
  intros Hflag. induction entries as [|item rest IH]; [reflexivity|].
  cbn [map filter]. unfold itemNode at 1. cbn [asNode classesOf itemElement classList].
  rewrite Hflag. destruct (flag item); cbn [List.length]; now rewrite IH.
Qed.

(** X17.  A list item carries the class [list-item], the class [current]
    exactly when the entry is current, the class [disabled] exactly when
    it is disabled and no other class; its text is the three titles, each
    followed by its value. *)
Theorem listItem_shows_entry (item : CouponData) :
  exists element,
    elems_listItem item = Done element /\
    hasClass "list-item" element = true /\
    hasClass "current" element = current item /\
    hasClass "disabled" element = disabled item /\
    (forall className, hasClass className element = true ->
       className = "list-item" \/ className = "current" \/ className = "disabled") /\
    textContent (asNode element)
    = ("Дата выплаты:" ++ paymentDate item ++ "Ставка:" ++ rate item
       ++ "Сумма 1 облигации:" ++ amount item)%string.
Proof.
  exists (itemElement item). split; [apply elems_listItem_done|].
  destruct (itemClasses_flags item) as (Hitem & Hcurrent & Hdisabled & _).
  unfold hasClass. cbn [itemElement classList].
  split; [exact Hitem|]. split; [exact Hcurrent|]. split; [exact Hdisabled|].
  split.
  - intros className. unfold itemClasses, contains.
    destruct (current item), (disabled item); simpl;
      repeat match goal with
             | |- context [String.eqb ?a ?b] =>
                 destruct (String.eqb_spec a b); subst; simpl; auto
             end; discriminate.
  - unfold asNode, itemElement. cbn [tagName attributes classList childNodes].
    cbn [textContent].
    repeat match goal with
           | |- context [textContent (valueNode ?k ?t ?v)] =>
               rewrite (textContent_value k t v)
           end.
    rewrite !string_app_nil_r, !string_app_assoc. reflexivity.
Qed.

(** X18.  [render] never throws.  It leaves in the container one node and
    nothing else, whatever the container held: the list, with one list
    item per entry, in order, or with the placeholder of the empty
    message when there are no entries. *)
Theorem render_shows_list (w : CouponsWidget) :
  render w = (Normal, showing (listNode (Kept.emptyMessage (options w)) (data w)) w) /\
  List.length (childrenWithClass "list-item"
                 (listNode (Kept.emptyMessage (options w)) (data w)))
  = List.length (data w) /\
  childrenWithClass "empty" (listNode (Kept.emptyMessage (options w)) (data w))
  = match data w with
    | [] => [messageNode "empty" (Kept.emptyMessage (options w))]
    | _ :: _ => []
    end.
Proof.
  split; [apply render_eq|].
  unfold childrenWithClass, listNode. cbn [childrenOf].
  destruct (data w) as [|item rest]; [split; reflexivity|].
  split.
  - rewrite (count_items "list-item" (fun _ => true)).
    + clear. generalize (item :: rest). intros l.
      induction l; simpl; [reflexivity | now rewrite IHl].
    + intros i. apply itemClasses_flags.
  - generalize (item :: rest). intros l.
    induction l as [|i l IH]; [reflexivity|].
    cbn [map filter]. unfold itemNode at 1.
    cbn [asNode classesOf itemElement classList].
    now rewrite (proj2 (proj2 (proj2 (itemClasses_flags i)))).
Qed.

(** X19.  [showLoading] and [showError] never throw and leave in the container
    one element with the message and nothing else, whatever the
    container held. *)
Theorem show_message (w : CouponsWidget) (message : string) :
  showLoading w
  = (Normal, showing (messageNode "loading" (Kept.loadingMessage (options w))) w) /\
  showError message w
  = (Normal, showing (messageNode "error" ("Ошибка: " ++ message)) w).
Proof. apply show_eq. Qed.

(** X20.  Rendering does not depend on what the container showed before:
    [render] after [render], after [destroy], after [showError] or after
    [showLoading] gives what [render] gives at once.  [destroy] empties
    the container and keeps the data. *)
Theorem render_replaces_contents (w : CouponsWidget) :
  render (snd (render w)) = render w /\
  render (destroy w) = render w /\
  (forall message, render (snd (showError message w)) = render w) /\
  render (snd (showLoading w)) = render w /\
  data (destroy w) = data w /\
  container (destroy w) = option_map (withChildren []) (container w).
Proof.
  repeat split.
  - rewrite !render_eq. cbn [snd]. now rewrite showing_showing.
  - rewrite !render_eq.
    replace (options (destroy w)) with (options w)
      by (destruct w as [o [c|] d]; reflexivity).
    replace (data (destroy w)) with (data w)
      by (destruct w as [o [c|] d]; reflexivity).
    now rewrite showing_destroy.
  - intros message. rewrite (proj2 (show_eq w message)).
    cbn [snd]. rewrite !render_eq. now rewrite showing_showing.
  - rewrite (proj1 (show_eq w "")). cbn [snd].
    rewrite !render_eq. now rewrite showing_showing.
  - destruct w as [o [c|] d]; reflexivity.
  - destruct w as [o [c|] d]; reflexivity.
Qed.
End WidgetFacts.

(** ** Loading *)

Section LoadingFacts.
Context {host : DateHost} {dom : DomHost}.

Lemma loadData_begin_eq (w : CouponsWidget) :
  loadData_begin w
  = let loading := showing (messageNode "loading" (Kept.loadingMessage (options w))) w in
    match truthyString (Kept.isin (options w)) with
    | Some isin => Awaiting (moexUrl isin) loading
    | None => Finished Normal loading
    end.
Proof.
  unfold loadData_begin. rewrite (proj1 (show_eq w "")). reflexivity.
Qed.

Lemma loadData_eq (currentDate : Z) (outcome : FetchOutcome) (w : CouponsWidget) :
  loadData currentDate outcome w
  = match truthyString (Kept.isin (options w)) with
    | None =>
        (Normal, showing (messageNode "loading" (Kept.loadingMessage (options w))) w)
    | Some _ =>
        match outcome with
        | Rejected error =>
            (Normal, showing (messageNode "error" ("Ошибка: " ++ errorMessage error)) w)
        | ResponseNotOk =>
            (Normal,
             showing (messageNode "error" "Ошибка: Ошибка загрузки данных с MOEX") w)
        | Coupons coupons =>
            let entries :=
              convertMOEXData currentDate
                (match coupons with Some l => l | None => [] end) in
            (Normal,
             showing (listNode (Kept.emptyMessage (options w)) entries)
               (withData entries w))
        end
    end.
Proof.
  unfold loadData. rewrite loadData_begin_eq. cbv zeta.
  destruct (truthyString (Kept.isin (options w))) as [isin|]; [|reflexivity].
  unfold loadData_resume, loadFromMOEX_resume.
  destruct outcome as [error| |coupons]; cbn [caught].
  - rewrite (proj2 (show_eq _ _)). now rewrite showing_showing.
  - rewrite (proj2 (show_eq _ _)). now rewrite showing_showing.
  - rewrite render_eq. cbn [caught]. f_equal.
    now rewrite showing_withData.
Qed.

(** X21.  How a load ends, an ISIN being set.  A request whose promise rejects
    ends in the error view with the message of the error; a response that
    is not [ok] ends in the error view with the message of the widget;
    in both cases the data stay as they were.  A reply ends in the list of
    the converted rows, which become the data, a missing [coupons] list
    counting as empty.  The load itself never throws. *)
Theorem loadData_outcomes (currentDate : Z) (w : CouponsWidget) (isin : string) :
  truthyString (Kept.isin (options w)) = Some isin ->
  loadData_begin w
  = Awaiting (moexUrl isin)
      (showing (messageNode "loading" (Kept.loadingMessage (options w))) w) /\
  (forall error,
      loadData currentDate (Rejected error) w
      = (Normal, showing (messageNode "error" ("Ошибка: " ++ errorMessage error)) w)) /\
  loadData currentDate ResponseNotOk w
  = (Normal, showing (messageNode "error" "Ошибка: Ошибка загрузки данных с MOEX") w) /\
  (forall coupons,
      loadData currentDate (Coupons (Some coupons)) w
      = (Normal,
         showing (listNode (Kept.emptyMessage (options w))
                    (convertMOEXData currentDate coupons))
           (withData (convertMOEXData currentDate coupons) w))) /\
  loadData currentDate (Coupons None) w
  = (Normal,
     showing (listNode (Kept.emptyMessage (options w)) []) (withData [] w)).
Proof.
  intros Hisin. split; [rewrite loadData_begin_eq; now rewrite Hisin|].
  repeat split; intros; rewrite loadData_eq, Hisin; reflexivity.
Qed.

(** X22.  Without an ISIN no request is made: the load ends with the loading
    view, whatever the network would answer, and the data stay as they
    were.  So does [load] called with the empty string. *)
Theorem load_without_isin (currentDate : Z) (outcome : FetchOutcome)
    (w : CouponsWidget) :
  (truthyString (Kept.isin (options w)) = None ->
   loadData_begin w
   = Finished Normal
       (showing (messageNode "loading" (Kept.loadingMessage (options w))) w) /\
   loadData currentDate outcome w
   = (Normal, showing (messageNode "loading" (Kept.loadingMessage (options w))) w)) /\
  load "" currentDate outcome w
  = (Normal,
     showing (messageNode "loading" (Kept.loadingMessage (options w)))
       (withIsin (Some "") w)).
Proof.
  split.
  - intros Hisin. rewrite loadData_begin_eq, loadData_eq, Hisin. split; reflexivity.
  - unfold load. rewrite loadData_eq. reflexivity.
Qed.

(** X23.  After a reply the container shows one list item per entry of the
    window, at most seven, or the placeholder when the reply has no rows;
    exactly one item carries the class [current] when some row is dated on
    or after today and the date strings are pairwise distinct, none when
    every row is before today. *)
Theorem loaded_list_items (currentDate : Z) (coupons : list MoexCoupon)
    (w : CouponsWidget) (c : Element) (isin : string) :
  container w = Some c ->
  truthyString (Kept.isin (options w)) = Some isin ->
  exists list,
    snd (loadData currentDate (Coupons (Some coupons)) w)
    = {| options := options w;
         container := Some (withChildren [list] c);
         data := convertMOEXData currentDate coupons |} /\
    (coupons = [] ->
     childrenOf list = [messageNode "empty" (Kept.emptyMessage (options w))]) /\
    (coupons <> [] ->
     childrenOf list = map itemNode (convertMOEXData currentDate coupons) /\
     (1 <= List.length (childrenOf list) <= 7)%nat) /\
    (hasAnchor currentDate coupons = true -> NoDup (map coupondate coupons) ->
     List.length (childrenWithClass "current" list) = 1%nat) /\
    (hasAnchor currentDate coupons = false ->
     childrenWithClass "current" list = []).
Proof.
  intros Hc Hisin.
  exists (listNode (Kept.emptyMessage (options w))
            (convertMOEXData currentDate coupons)).
  split; [|split; [|split; [|split]]].
  - rewrite loadData_eq, Hisin. cbn [snd]. unfold showing, withData.
    cbn [options container data]. now rewrite Hc.
  - intros ->. reflexivity.
  - intros Hne. unfold listNode. cbn [childrenOf].
    destruct (convertMOEXData currentDate coupons) as [|e rest] eqn:Hout.
    + apply convertMOEXData_nil in Hout. contradiction.
    + split; [reflexivity|]. rewrite length_map, <- Hout.
      pose proof (convertMOEXData_len_cases currentDate coupons) as Hlen.
      pose proof (firstUpcomingIndex_range currentDate coupons) as Hr.
      cbv zeta in Hlen. unfold len in Hlen at 1.
      rewrite Hout in *. cbn [List.length] in *.
      destruct (Z.leb_spec (firstUpcomingIndex currentDate coupons) 2); lia.
  - intros Hanchor Hnd.
    pose proof (countCurrent_distinct _ _ Hanchor Hnd) as Hone.
    unfold childrenWithClass, listNode. cbn [childrenOf].
    destruct (convertMOEXData currentDate coupons) as [|e rest] eqn:Hout;
      [discriminate|].
    rewrite (count_items "current" current); [exact Hone|].
    intros item. apply itemClasses_flags.
  - intros Hnone.
    pose proof (countCurrent_no_anchor _ _ Hnone) as Hzero.
    unfold childrenWithClass, listNode. cbn [childrenOf].
    destruct (convertMOEXData currentDate coupons) as [|e rest] eqn:Hout;
      [reflexivity|].
    pose proof (count_items "current" current (e :: rest)
                  (fun item => proj1 (proj2 (itemClasses_flags item)))) as Hcount.
    unfold countCurrent in Hzero. rewrite Hzero in Hcount.
    now apply length_zero_iff_nil in Hcount.
Qed.

Lemma keepsFrame_showing (n : Node) (w : CouponsWidget) :
  keepsFrame w (showing n w).
Proof. split; [reflexivity|]. now destruct w as [o [c|] d]. Qed.

Lemma keepsFrame_showing_data (n : Node) (d : list CouponData) (w : CouponsWidget) :
  keepsFrame w (showing n (withData d w)).
Proof. split; [reflexivity|]. now destruct w as [o [c|] d']. Qed.

(** X24.  No operation on a constructed widget touches its options or the
    tag, the attributes (so the id) and the classes of its container:
    only the children of the container and the data change.  [render],
    [showLoading], [showError] and [destroy] keep the data as well. *)
Theorem widget_frame_kept (w : CouponsWidget) :
  (keepsFrame w (snd (render w)) /\ data (snd (render w)) = data w) /\
  (keepsFrame w (snd (showLoading w)) /\ data (snd (showLoading w)) = data w) /\
  (forall message,
      keepsFrame w (snd (showError message w)) /\
      data (snd (showError message w)) = data w) /\
  (keepsFrame w (destroy w) /\ data (destroy w) = data w) /\
  (forall newData,
      keepsFrame w (snd (updateData newData w)) /\
      data (snd (updateData newData w)) = newData) /\
  (forall currentDate outcome,
      keepsFrame w (snd (loadData currentDate outcome w))).
Proof.
  split; [|split; [|split; [|split; [|split]]]].
  - rewrite render_eq. split; [apply keepsFrame_showing | reflexivity].
  - rewrite (proj1 (show_eq w "")). split; [apply keepsFrame_showing | reflexivity].
  - intros message. rewrite (proj2 (show_eq w message)).
    split; [apply keepsFrame_showing | reflexivity].
  - split; [|now destruct w as [o [c|] d]].
    split; now destruct w as [o [c|] d].
  - intros newData. unfold updateData. rewrite render_eq.
    split; [apply keepsFrame_showing_data | reflexivity].
  - intros currentDate outcome. rewrite loadData_eq.
    destruct (truthyString (Kept.isin (options w)));
      [destruct outcome|]; cbn [snd];
      first [apply keepsFrame_showing | apply keepsFrame_showing_data].
Qed.
End LoadingFacts.

(** ** Construction *)

Section ConstructionFacts.
Context {host : DateHost} {dom : DomHost}.

Lemma truthyString_idempotent (s : option string) :
  truthyString (truthyString s) = truthyString s.
Proof.
  destruct s as [v|]; [|reflexivity]. simpl.
  destruct (String.eqb v "") eqn:Hv; [reflexivity|]. simpl. now rewrite Hv.
Qed.

(** X25.  The constructor.  The container is the element found under the
    container id or, when there is none, a new [div] with that id; it
    gets the class [coupons-widget] unless it has it.  Without an ISIN the
    constructor ends with the list of the given data in the container,
    with an ISIN with the loading view and the request under way.  The
    defaults are the id [coupons-widget], no data and the two messages of
    the widget. *)
Theorem construct_result (given : Given.CouponsWidgetOptions) (found : option Element) :
  (found = None -> validAttributeName "id" = true) ->
  let w := newWidget given in
  let base :=
    match found with
    | Some c => c
    | None => {| tagName := "div";
                 attributes := [("id", Kept.containerId (options w))];
                 classList := [];
                 childNodes := [] |}
    end in
  let c :=
    if hasClass "coupons-widget" base then base
    else {| tagName := tagName base;
            attributes := attributes base;
            classList := (classList base ++ ["coupons-widget"])%list;
            childNodes := childNodes base |} in
  construct given found
  = match truthyString (Given.isin given) with
    | Some isin =>
        Awaiting (moexUrl isin)
          (showing (messageNode "loading" (Kept.loadingMessage (options w)))
             (withContainer (Some c) w))
    | None =>
        Finished Normal
          (showing (listNode (Kept.emptyMessage (options w)) (data w))
             (withContainer (Some c) w))
    end /\
  data w = match Given.data given with Some d => d | None => [] end /\
  (Given.containerId given = None -> Kept.containerId (options w) = "coupons-widget") /\
  (Given.emptyMessage given = None -> Kept.emptyMessage (options w) = "Данных нет") /\
  (Given.loadingMessage given = None ->
   Kept.loadingMessage (options w) = "Загрузка данных").
Proof.
  intros Hid w base c.
  split; [|split; [reflexivity|]; repeat split; intros Hnone;
           unfold w, newWidget; cbn; now rewrite Hnone].
  assert (Hini : iniBaseContainer found w = (Normal, withContainer (Some c) w)).
  { unfold iniBaseContainer.
    assert (Hmade : match found with
                    | Some c0 => Done c0
                    | None => setAttr "id" (Some (Kept.containerId (options w)))
                                (create "div")
                    end = Done base).
    { unfold base. destruct found as [c0|]; [reflexivity|].
      unfold setAttr, setAttribute. rewrite (Hid eq_refl). reflexivity. }
    rewrite Hmade. unfold c, hasClass, enhanced_hasClass.
    destruct (contains "coupons-widget" (classList base)) eqn:Hhas;
      cbn [negb]; [reflexivity|].
    unfold enhanced_addClass, classList_add. cbn [tokensError].
    assert (Htoken : tokenError "coupons-widget" = None) by reflexivity.
    rewrite Htoken. cbn [fold_left]. unfold appendToken. now rewrite Hhas. }
  unfold construct, init. fold w. rewrite Hini, render_eq.
  cbn [options withContainer showing].
  assert (Hisin : Kept.isin (options w) = truthyString (Given.isin given))
    by reflexivity.
  pose proof (truthyString_idempotent (Given.isin given)) as Hidem.
  rewrite Hisin, Hidem.
  destruct (truthyString (Given.isin given)) as [isin|] eqn:Htruthy;
    [|reflexivity].
  rewrite loadData_begin_eq. cbv zeta. cbn [options withContainer showing].
  rewrite Hisin, Hidem.
  f_equal.
Qed.
End ConstructionFacts.

(** * Automatic initialisation *)

Section AutoInitFacts.
Context {dom : DomHost}.

Lemma getAttribute_put (name value : string) (attrs : list (string * string)) :
  getAttribute name (putAttribute name value attrs) = Some value.
Proof.
  induction attrs as [|[n v] rest IH]; simpl.
  - now rewrite String.eqb_refl.
  - destruct (String.eqb n name) eqn:Hn; simpl; now rewrite Hn.
Qed.

Lemma getAttribute_put_other (name other value : string)
    (attrs : list (string * string)) :
  other <> name ->
  getAttribute other (putAttribute name value attrs) = getAttribute other attrs.
Proof.
  intros Hneq. induction attrs as [|[n v] rest IH]; simpl.
  - destruct (String.eqb_spec name other); [congruence | reflexivity].
  - destruct (String.eqb_spec n name) as [->|Hn]; simpl.
    + destruct (String.eqb_spec name other); [congruence | reflexivity].
    + destruct (String.eqb_spec n other); [reflexivity | exact IH].
Qed.

Lemma numberToString_inj (a b : Z) :
  numberToString (Some a) = numberToString (Some b) -> a = b.
Proof.
  unfold numberToString. intros Heq.
  assert (Hnonnil : forall z, Z.to_int z <> Decimal.Pos Decimal.Nil /\
                              Z.to_int z <> Decimal.Neg Decimal.Nil).
  { intros [|p|p]; simpl; split; try discriminate;
      intros Hp; injection Hp as Hp;
      now apply DecimalPos.Unsigned.to_uint_nonnil in Hp. }
  apply DecimalZ.to_int_inj.
  apply (f_equal NilZero.int_of_string) in Heq.
  rewrite !NilZero.isi in Heq by apply Hnonnil.
  now injection Heq.
Qed.

Lemma generated_id_inj (a b : Z) :
  ("coupons-widget-" ++ numberToString (Some a))%string
  = ("coupons-widget-" ++ numberToString (Some b))%string -> a = b.
Proof.
  intros Heq. simpl in Heq. apply numberToString_inj.
  now repeat injection Heq as Heq.
Qed.

Lemma autoInitFrom_length (k : Z) (containers : list Element) :
  List.length (fst (autoInitFrom k containers)) = List.length containers.
Proof.
  revert k. induction containers as [|c rest IH]; intros k; [reflexivity|].
  cbn [autoInitFrom]. unfold autoInitOne.
  destruct (autoInitFrom _ rest) as [done final] eqn:Hrest.
  cbn [fst List.length]. f_equal.
  specialize (IH (if negb (String.eqb (elementId c) "") then k else k + 1)).
  now rewrite Hrest in IH.
Qed.

Lemma autoInitFrom_nth (k : Z) (l : list Element) (j : nat)
    (c c' : Element) (o : AutoOptions) :
  nth_error l j = Some c ->
  nth_error (fst (autoInitFrom k l)) j = Some (o, c') ->
  elementId c' = auto_containerId o /\
  auto_containerId o <> "" /\
  (elementId c <> "" -> c' = c /\ auto_containerId o = elementId c) /\
  (elementId c = "" ->
   auto_containerId o
   = ("coupons-widget-"
      ++ numberToString (Some (k + len (withoutId (firstn (S j) l)))))%string) /\
  auto_isin o = truthyString (getAttribute "data-isin" (attributes c)) /\
  getAttribute "data-isin" (attributes c') = getAttribute "data-isin" (attributes c) /\
  classList c' = classList c /\ childNodes c' = childNodes c.
Proof.
  assert (Hsame : forall a b : Z,
             a = b ->
             ("coupons-widget-" ++ numberToString (Some a))%string
             = ("coupons-widget-" ++ numberToString (Some b))%string)
    by (intros a b ->; reflexivity).
  revert k j. induction l as [|x rest IH]; intros k j Hc Ho.
  - destruct j; discriminate.
  - cbn [autoInitFrom] in Ho. unfold autoInitOne in Ho.
    destruct (autoInitFrom _ rest) as [done final] eqn:Hrest.
    cbn [fst] in Ho. destruct j as [|j].
    + cbn [nth_error] in Hc, Ho. injection Hc as ->. injection Ho as <- <-.
      cbn [auto_containerId auto_isin firstn].
      unfold withoutId. cbn [filter].
      destruct (String.eqb_spec (elementId c) "") as [Hnone|Hsome]; cbn [negb].
      * unfold elementId at 1, setElementId. cbn [attributes classList childNodes].
        rewrite getAttribute_put.
        split; [reflexivity|]. split; [discriminate|].
        split; [intros Hne; congruence|].
        split; [intros _; apply Hsame; unfold len; simpl; lia|].
        split; [reflexivity|].
        split; [apply getAttribute_put_other; discriminate|].
        split; reflexivity.
      * split; [reflexivity|]. split; [exact Hsome|].
        split; [intros _; split; reflexivity|].
        split; [intros Hnone; contradiction|].
        repeat split; reflexivity.
    + cbn [nth_error] in Hc, Ho.
      specialize (IH (if negb (String.eqb (elementId x) "") then k else k + 1) j Hc).
      rewrite Hrest in IH. specialize (IH Ho).
      destruct IH as (H1 & H2 & H3 & H4 & H5 & H6 & H7 & H8).
      split; [exact H1|]. split; [exact H2|]. split; [exact H3|].
      split; [|repeat split; assumption].
      intros Hnone. rewrite (H4 Hnone). apply Hsame.
      change (firstn (S (S j)) (x :: rest)) with (x :: firstn (S j) rest).
      unfold withoutId. cbn [filter].
      destruct (String.eqb (elementId x) ""); cbn [negb]; unfold len;
        cbn [List.length]; lia.
Qed.


(** X27.  [autoInit] handles every marked container once, the counter ends at
    the number of containers without an id, and two containers without an
    id never get the same generated id. *)
Theorem autoInit_ids_distinct (containers : list Element) :
  List.length (fst (autoInit containers)) = List.length containers /\
  snd (autoInit containers) = len (withoutId containers) /\
  forall i j ci cj oi oj ci' cj',
    (i < j)%nat ->
    nth_error containers i = Some ci -> nth_error containers j = Some cj ->
    nth_error (fst (autoInit containers)) i = Some (oi, ci') ->
    nth_error (fst (autoInit containers)) j = Some (oj, cj') ->
    elementId ci = "" -> elementId cj = "" ->
    auto_containerId oi <> auto_containerId oj.
Proof.
  split; [apply autoInitFrom_length|]. split.
  - unfold autoInit.
    assert (Hgen : forall l k, snd (autoInitFrom k l) = k + len (withoutId l)).
    { induction l as [|x rest IH]; intros k.
      - unfold len. simpl. lia.
      - cbn [autoInitFrom]. unfold autoInitOne.
        specialize (IH (if negb (String.eqb (elementId x) "") then k else k + 1)).
        destruct (autoInitFrom _ rest) as [done final]. cbn [snd] in *.
        rewrite IH. unfold withoutId. cbn [filter].
        destruct (String.eqb (elementId x) ""); cbn [negb]; unfold len;
          cbn [List.length]; lia. }
    rewrite Hgen. lia.
  - intros i j ci cj oi oj ci' cj' Hij Hci Hcj Hoi Hoj Hni Hnj Heq.
    pose proof (proj1 (proj2 (proj2 (proj2
                  (autoInitFrom_nth 0 containers i ci ci' oi Hci Hoi)))) Hni) as Hi.
    pose proof (proj1 (proj2 (proj2 (proj2
                  (autoInitFrom_nth 0 containers j cj cj' oj Hcj Hoj)))) Hnj) as Hj.
    rewrite Hi, Hj in Heq. apply generated_id_inj in Heq.
    assert (Hlt : len (withoutId (firstn (S i) containers))
                  < len (withoutId (firstn (S j) containers))).
    { clear - Hij Hcj Hnj.
      replace (S j) with (S i + (S j - S i))%nat by lia.
      rewrite firstn_add. unfold withoutId. rewrite filter_app.
      unfold len. rewrite length_app.
      assert (Hin : In cj (firstn (S j - S i) (skipn (S i) containers))).
      { assert (Hnth : nth_error (firstn (S j - S i) (skipn (S i) containers))
                         (j - S i) = Some cj).
        { rewrite nth_error_firstn.
          destruct (Nat.ltb_spec (j - S i) (S j - S i)); [|lia].
          rewrite nth_error_skipn. rewrite <- Hcj. f_equal. lia. }
        eapply nth_error_In. exact Hnth. }
      assert (Hf : In cj (filter (fun c => String.eqb (elementId c) "")
                            (firstn (S j - S i) (skipn (S i) containers)))).
      { apply filter_In. split; [exact Hin|]. now rewrite Hnj. }
      destruct (filter _ (firstn (S j - S i) (skipn (S i) containers)));
        [contradiction|]. cbn [List.length]. lia. }
    lia.
Qed.
End AutoInitFacts.

(** * Further instances on the UTC host *)

Section MoreOnUtcHost.
#[local] Existing Instance utcHost.
#[local] Existing Instance plainDom.

Local Ltac by_computation :=
  vm_compute; first [reflexivity | discriminate | (intros; discriminate)].

Lemma monthly2024_allParse : allParse monthly2024.
Proof. repeat constructor; discriminate. Defined.

Lemma monthly2024_distinctTimes : distinctTimes monthly2024.
Proof. vm_compute. repeat constructor; simpl; intuition discriminate. Defined.

Lemma monthly2024_distinctDates : NoDup (map coupondate monthly2024).
Proof. vm_compute. repeat constructor; simpl; intuition discriminate. Defined.

Lemma formatDate_invalid_witness : formatDate "n/a" = "NaN.NaN.NaN".
Proof. apply formatDate_invalid. reflexivity. Defined.

Lemma formatDate_valid_witness : formatDate "2024-03-09" = "09.03.2024".
Proof.
  refine (formatDate_valid "2024-03-09" (midnightOf "2024-03-09") _ _ _);
    [reflexivity | vm_compute; split; discriminate | vm_compute; split; discriminate].
Defined.

Lemma past_entries_first_witness :
  map disabled (convertMOEXData (midnightOf "2024-05-15") monthly2024)
  = [true; true; false; false; false].
Proof.
  exact (proj1 (past_entries_first (midnightOf "2024-05-15") monthly2024
                  monthly2024_allParse)).
Defined.

Lemma current_is_earliest_upcoming_witness :
  num_le (getTime "2024-06-01") (getTime "2024-08-01") = true.
Proof.
  refine (proj2 (current_is_earliest_upcoming (midnightOf "2024-05-15")
                   monthly2024 "2024-06-01" monthly2024_allParse _)
            (coupon "2024-08-01" "7.5" "37.4") _ _).
  - reflexivity.
  - vm_compute. intuition.
  - reflexivity.
Defined.

Lemma convertMOEXData_order_independent_witness :
  convertMOEXData (midnightOf "2024-05-15") monthly2024
  = convertMOEXData (midnightOf "2024-05-15") (rev monthly2024).
Proof.
  refine (convertMOEXData_order_independent (midnightOf "2024-05-15")
            monthly2024 (rev monthly2024) _
            monthly2024_allParse monthly2024_distinctTimes).
  apply Permutation_rev.
Defined.

Lemma upcoming_status_unreachable_witness :
  String.eqb
    (getCouponStatus "2024-06-01" (midnightOf "2024-06-01")
       (currentCouponDate (midnightOf "2024-06-01") monthly2024))
    "upcoming" = false.
Proof.
  destruct (String.eqb_spec
              (getCouponStatus "2024-06-01" (midnightOf "2024-06-01")
                 (currentCouponDate (midnightOf "2024-06-01") monthly2024))
              "upcoming") as [Hstatus|]; [|reflexivity].
  exfalso.
  refine (upcoming_status_unreachable (midnightOf "2024-06-01") monthly2024
            monthly2024_allParse monthly2024_distinctTimes
            (coupon "2024-06-01" "7.5" "37.4") _ Hstatus).
  vm_compute. intuition.
Defined.


Lemma all_past_window_witness :
  len (convertMOEXData (midnightOf "2025-01-01") monthly2024) = 2.
Proof.
  refine (proj1 (proj2 (proj2 (proj2
            (all_past_window (midnightOf "2025-01-01") monthly2024 _))))).
  repeat constructor.
Defined.

Lemma window_at_least_two_witness :
  Z.min (len monthly2024) 2
  <= len (convertMOEXData (midnightOf "2025-01-01") monthly2024)
  <= len monthly2024.
Proof.
  exact (proj1 (window_at_least_two (midnightOf "2025-01-01") monthly2024)).
Defined.

Lemma legacy_window_at_most_five_witness :
  len (legacy_convertMOEXData (midnightOf "2024-02-15") monthly2024) = 5.
Proof.
  refine (proj1 (proj2 (legacy_window_at_most_five
                          (midnightOf "2024-02-15") monthly2024) _ _ _));
    by_computation.
Defined.

Lemma legacy_window_is_prefix_witness :
  legacy_convertMOEXData (midnightOf "2024-02-15") monthly2024
  = firstn 5 (convertMOEXData (midnightOf "2024-02-15") monthly2024).
Proof.
  refine (proj2 (proj2 (legacy_window_is_prefix
                          (midnightOf "2024-02-15") monthly2024)) _).
  vm_compute. repeat constructor.
Defined.


Lemma addClass_once_witness :
  exists added,
    addClass (OneClass "current") (create "div") = Done added /\
    hasClass "current" added = true /\
    (forall other, hasClass other added
                   = hasClass other (create "div") || String.eqb other "current") /\
    (hasClass "current" (create "div") = true -> added = create "div") /\
    addClass (OneClass "current") added = Done added /\
    childNodes added = childNodes (create "div") /\
    attributes added = attributes (create "div").
Proof. exact (addClass_once "current" (create "div")). Defined.

Lemma toggleClass_twice_witness :
  exists once twice,
    toggleClass "current" bondContainer = Done once /\
    toggleClass "current" once = Done twice /\
    hasClass "current" once = negb (hasClass "current" bondContainer) /\
    forall other, hasClass other twice = hasClass other bondContainer.
Proof. apply toggleClass_twice. reflexivity. Defined.

Lemma listItem_shows_entry_witness :
  exists element,
    elems_listItem (displayEntry (coupon "2024-06-01" "7.5" "37.4") true false)
    = Done element /\
    hasClass "current" element = true /\
    textContent (asNode element)
    = "Дата выплаты:01.06.2024Ставка:7.5%Сумма 1 облигации:37.4₽".
Proof.
  destruct (listItem_shows_entry
              (displayEntry (coupon "2024-06-01" "7.5" "37.4") true false))
    as (element & Hdone & _ & Hcurrent & _ & _ & Htext).
  exists element. split; [exact Hdone|]. split; [exact Hcurrent | exact Htext].
Defined.

Lemma loadData_outcomes_witness :
  loadData (midnightOf "2024-05-15") ResponseNotOk bondWidget
  = (Normal,
     showing (messageNode "error" "Ошибка: Ошибка загрузки данных с MOEX")
       bondWidget).
Proof.
  refine (proj1 (proj2 (proj2 (loadData_outcomes (midnightOf "2024-05-15")
                                 bondWidget "RU000A0JX0J2" _)))).
  reflexivity.
Defined.

Lemma load_without_isin_witness :
  loadData (midnightOf "2024-05-15") (Coupons (Some monthly2024)) idleWidget
  = (Normal, showing (messageNode "loading" "Загрузка данных") idleWidget).
Proof.
  refine (proj2 (proj1 (load_without_isin (midnightOf "2024-05-15")
                          (Coupons (Some monthly2024)) idleWidget) _)).
  reflexivity.
Defined.

Lemma loaded_list_items_witness :
  exists list,
    snd (loadData (midnightOf "2024-05-15") (Coupons (Some monthly2024)) bondWidget)
    = {| options := options bondWidget;
         container := Some (withChildren [list] bondContainer);
         data := convertMOEXData (midnightOf "2024-05-15") monthly2024 |} /\
    List.length (childrenOf list) = 5%nat /\
    List.length (childrenWithClass "current" list) = 1%nat.
Proof.
  destruct (loaded_list_items (midnightOf "2024-05-15") monthly2024 bondWidget
              bondContainer "RU000A0JX0J2" eq_refl eq_refl)
    as (list & Hstate & _ & Hitems & Hcurrent & _).
  exists list. split; [exact Hstate|]. split.
  - rewrite (proj1 (Hitems ltac:(discriminate))). reflexivity.
  - apply Hcurrent; [reflexivity | exact monthly2024_distinctDates].
Defined.

Lemma construct_result_witness :
  construct noOptions None
  = Finished Normal
      {| options := {| Kept.containerId := "coupons-widget";
                       Kept.isin := None;
                       Kept.emptyMessage := "Данных нет";
                       Kept.loadingMessage := "Загрузка данных";
                       Kept.data := [] |};
         container :=
           Some {| tagName := "div";
                   attributes := [("id", "coupons-widget")];
                   classList := ["coupons-widget"];
                   childNodes := [listNode "Данных нет" []] |};
         data := [] |}.
Proof.
  refine (proj1 (construct_result noOptions None _)).
  intros _. reflexivity.
Defined.


Lemma autoInit_ids_distinct_witness :
  snd (autoInit markedContainers) = 2.
Proof.
  exact (proj1 (proj2 (autoInit_ids_distinct markedContainers))).
Defined.
End MoreOnUtcHost.
